(** * bot_assistant: a console contact book

    A shallow embedding of [src/bot_assistant.py] and the properties of its
    data model, its validators, its command handlers and its dispatch loop.

    Conventions of the embedding.
    - A Python [str] is a Rocq [string]; its characters are read as the code
      points U+0000..U+00FF, and the character classes below are Python's on
      that range.
    - A Python value that the program passes around both as a [str] and as a
      [list] of [str] (the arguments of a command) is a [pyval].
    - A call that may raise returns a [result]; code that also mutates the
      book, prints or touches the file system is a state-passing function on
      a [World].
    - The book's [dict] is an association list in insertion order, which is
      the order Python iterates a dict in. *)

From Stdlib Require Import String Ascii List ZArith NArith Lia Bool DecimalString.
Import ListNotations.

Local Open Scope string_scope.
Local Open Scope Z_scope.

(** ** Exceptions and results *)

Inductive exn_kind : Type :=
| ValueError
| KeyError
| IndexError
| TypeError
| OverflowError
| EOFError
| FileNotFoundError
| UnpicklingError.

Record exn : Type := mkExn { kind : exn_kind; message : string }.

Inductive result (A : Type) : Type :=
| Return (a : A)
| Raise (e : exn).

Arguments Return {A} a.
Arguments Raise {A} e.

Definition bind {A B : Type} (r : result A) (k : A -> result B) : result B :=
  match r with
  | Return a => k a
  | Raise e => Raise e
  end.

Notation "x <- r ;; k" := (bind r (fun x => k))
  (at level 61, r at next level, right associativity).

Definition raise {A : Type} (k : exn_kind) (msg : string) : result A :=
  Raise (mkExn k msg).

Definition returns {A : Type} (r : result A) : bool :=
  match r with Return _ => true | Raise _ => false end.

(** ** The Python built-ins the program calls *)

Module Py.

(** *** Characters *)

Definition code (c : ascii) : N := N_of_ascii c.

Definition between (lo hi n : N) : bool := ((lo <=? n) && (n <=? hi))%N.

(** [c in "0123456789"]: what [int()] and the regular expression [\d] accept. *)
Definition isdecimal_char (c : ascii) : bool := between 48 57 (code c).

(** [str.isdigit] on one character: the decimal digits and the superscripts
    U+00B2, U+00B3 and U+00B9. *)
Definition isdigit_char (c : ascii) : bool :=
  isdecimal_char c
  || (code c =? 178)%N || (code c =? 179)%N || (code c =? 185)%N.

(** [str.isspace] on one character. *)
Definition isspace_char (c : ascii) : bool :=
  between 9 13 (code c) || between 28 32 (code c)
  || (code c =? 133)%N || (code c =? 160)%N.

(** [str.lower] on one character. *)
Definition lower_char (c : ascii) : ascii :=
  let n := code c in
  if between 65 90 n || (between 192 222 n && negb (n =? 215)%N)
  then ascii_of_N (n + 32) else c.

Definition digit_value (c : ascii) : Z := Z.of_N (code c) - 48.

(** *** Strings *)

Fixpoint all_chars (p : ascii -> bool) (s : string) : bool :=
  match s with
  | EmptyString => true
  | String c s' => p c && all_chars p s'
  end.

Fixpoint map_chars (f : ascii -> ascii) (s : string) : string :=
  match s with
  | EmptyString => EmptyString
  | String c s' => String (f c) (map_chars f s')
  end.

Definition is_empty (s : string) : bool :=
  match s with EmptyString => true | String _ _ => false end.

Definition len (s : string) : Z := Z.of_nat (String.length s).

(** [s.isdigit()]: at least one character, and all of them digits. *)
Definition isdigit (s : string) : bool :=
  negb (is_empty s) && all_chars isdigit_char s.

Definition lower (s : string) : string := map_chars lower_char s.

(** Iterating a [str] yields its characters as one-character strings. *)
Fixpoint chars (s : string) : list string :=
  match s with
  | EmptyString => []
  | String c s' => String c EmptyString :: chars s'
  end.

Fixpoint rev_str (s acc : string) : string :=
  match s with
  | EmptyString => acc
  | String c s' => rev_str s' (String c acc)
  end.

Fixpoint lstrip (s : string) : string :=
  match s with
  | EmptyString => EmptyString
  | String c s' => if isspace_char c then lstrip s' else s
  end.

Definition rstrip (s : string) : string :=
  rev_str (lstrip (rev_str s EmptyString)) EmptyString.

(** [s.strip()] *)
Definition strip (s : string) : string := rstrip (lstrip s).

(** [s.split()]: the maximal runs of characters that are not white space;
    [tok] is the run being read. *)
Fixpoint split_ws (s tok : string) : list string :=
  match s with
  | EmptyString => if is_empty tok then [] else [tok]
  | String c s' =>
      if isspace_char c
      then (if is_empty tok then split_ws s' EmptyString
            else tok :: split_ws s' EmptyString)
      else split_ws s' (tok ++ String c EmptyString)
  end.

Definition split (s : string) : list string := split_ws s EmptyString.

(** [s.split(sep)] for a one-character separator. *)
Fixpoint split_on (sep : ascii) (s tok : string) : list string :=
  match s with
  | EmptyString => [tok]
  | String c s' =>
      if Ascii.eqb c sep then tok :: split_on sep s' EmptyString
      else split_on sep s' (tok ++ String c EmptyString)
  end.

Definition split_sep (sep : ascii) (s : string) : list string :=
  split_on sep s EmptyString.

(** [sep.join(l)] *)
Fixpoint join (sep : string) (l : list string) : string :=
  match l with
  | [] => EmptyString
  | [x] => x
  | x :: l' => x ++ sep ++ join sep l'
  end.

(** [str(n)] for a natural number. *)
Definition decimal (n : nat) : string :=
  DecimalString.NilZero.string_of_uint (Nat.to_uint n).

(** *** Integers from strings *)

(** The digits of an integer literal, single underscores allowed between
    them: the value read so far, the number of digits read so far, and
    whether the previous character was a digit. *)
Fixpoint digits (s : string) (acc : Z) (n : nat) (after_digit : bool)
  : option (Z * nat) :=
  match s with
  | EmptyString => if after_digit then Some (acc, n) else None
  | String c s' =>
      if isdecimal_char c
      then digits s' (10 * acc + digit_value c) (S n) true
      else if Ascii.eqb c "_"
           then (if after_digit then digits s' acc n false else None)
           else None
  end.

(** The white space [int()] strips: [str.isspace] without U+001C..U+001F. *)
Definition int_space (c : ascii) : bool :=
  isspace_char c && negb (between 28 31 (code c)).

Fixpoint lstrip_int (s : string) : string :=
  match s with
  | EmptyString => EmptyString
  | String c s' => if int_space c then lstrip_int s' else s
  end.

Definition strip_int (s : string) : string :=
  rev_str (lstrip_int (rev_str (lstrip_int s) EmptyString)) EmptyString.

Definition max_str_digits : nat := 4300.

(** [int(s)] in base 10. The library's message quotes [s]; the embedding
    keeps the fixed part of it. *)
Definition int (s : string) : result Z :=
  let body := strip_int s in
  let signed :=
    match body with
    | String "-" r => (true, r)
    | String "+" r => (false, r)
    | _ => (false, body)
    end in
  match digits (snd signed) 0 0%nat false with
  | Some (v, n) =>
      if (max_str_digits <? n)%nat
      then raise ValueError "Exceeds the limit (4300 digits) for integer string conversion"
      else Return (if fst signed then - v else v)
  | None => raise ValueError "invalid literal for int() with base 10"
  end.

(** *** Calendar dates (module [datetime]) *)

Record date : Type := mkDate { year : Z; month : Z; day : Z }.

Definition is_leap (y : Z) : bool :=
  (y mod 4 =? 0) && (negb (y mod 100 =? 0) || (y mod 400 =? 0)).

Definition DAYS_IN_MONTH (m : Z) : Z :=
  match m with
  | 1 => 31 | 2 => 28 | 3 => 31 | 4 => 30 | 5 => 31 | 6 => 30
  | 7 => 31 | 8 => 31 | 9 => 30 | 10 => 31 | 11 => 30 | 12 => 31
  | _ => -1
  end.

Definition DAYS_BEFORE_MONTH (m : Z) : Z :=
  match m with
  | 1 => 0 | 2 => 31 | 3 => 59 | 4 => 90 | 5 => 120 | 6 => 151
  | 7 => 181 | 8 => 212 | 9 => 243 | 10 => 273 | 11 => 304 | 12 => 334
  | _ => -1
  end.

Definition days_before_year (y : Z) : Z :=
  let y1 := y - 1 in y1 * 365 + y1 / 4 - y1 / 100 + y1 / 400.

Definition days_in_month (y m : Z) : Z :=
  if (m =? 2) && is_leap y then 29 else DAYS_IN_MONTH m.

Definition days_before_month (y m : Z) : Z :=
  DAYS_BEFORE_MONTH m + (if (2 <? m) && is_leap y then 1 else 0).

Definition MINYEAR : Z := 1.
Definition MAXYEAR : Z := 9999.
Definition MAXORDINAL : Z := 3652059.

(** [date.toordinal] *)
Definition ymd2ord (d : date) : Z :=
  days_before_year (year d) + days_before_month (year d) (month d) + day d.

(** [date.fromordinal] *)
Definition ord2ymd (n0 : Z) : date :=
  let n := n0 - 1 in
  let n400 := n / 146097 in
  let n := n mod 146097 in
  let y := n400 * 400 + 1 in
  let n100 := n / 36524 in
  let n := n mod 36524 in
  let n4 := n / 1461 in
  let n := n mod 1461 in
  let n1 := n / 365 in
  let n := n mod 365 in
  let y := y + n100 * 100 + n4 * 4 + n1 in
  if (n1 =? 4) || (n100 =? 4) then mkDate (y - 1) 12 31
  else
    let leapyear := (n1 =? 3) && (negb (n4 =? 24) || (n100 =? 3)) in
    let m := Z.shiftr (n + 50) 5 in
    let preceding :=
      DAYS_BEFORE_MONTH m + (if (2 <? m) && leapyear then 1 else 0) in
    if n <? preceding
    then
      let m' := m - 1 in
      let preceding' :=
        preceding
        - (DAYS_IN_MONTH m' + (if (m' =? 2) && leapyear then 1 else 0)) in
      mkDate y m' (n - preceding' + 1)
    else mkDate y m (n - preceding + 1).

Definition valid_date (d : date) : bool :=
  (MINYEAR <=? year d) && (year d <=? MAXYEAR)
  && (1 <=? month d) && (month d <=? 12)
  && (1 <=? day d) && (day d <=? days_in_month (year d) (month d)).

Definition fits_c_int (z : Z) : bool := (- 2147483648 <=? z) && (z <=? 2147483647).

(** [datetime(y, m, d)], of which the program only uses the date. *)
Definition datetime (y m d : Z) : result date :=
  if negb (fits_c_int y && fits_c_int m && fits_c_int d)
  then raise OverflowError "signed integer is greater than maximum"
  else if valid_date (mkDate y m d) then Return (mkDate y m d)
       else raise ValueError "day is out of range for month".

(** [a <= b] on dates compares year, month and day in this order. *)
Definition date_le (a b : date) : bool :=
  (year a <? year b)
  || ((year a =? year b)
      && ((month a <? month b)
          || ((month a =? month b) && (day a <=? day b)))).

(** [d + timedelta(days=n)] *)
Definition add_days (d : date) (n : Z) : result date :=
  let o := ymd2ord d + n in
  if (0 <? o) && (o <=? MAXORDINAL) then Return (ord2ymd o)
  else raise OverflowError "date value out of range".

(** *** [datetime.strptime(s, "%d.%m.%Y")]

    The directives are the regular expressions of the library:
    [%d] is [3[0-1]|[1-2]\d|0[1-9]|[1-9]| [1-9]], [%m] is
    [1[0-2]|0[1-9]|[1-9]] and [%Y] is [\d\d\d\d]. None of them matches a
    dot, so the text matches the format exactly when its three dot-separated
    fields match the three directives, and text after the year is refused. *)

Definition strptime_d (s : string) : option Z :=
  match s with
  | String a (String b EmptyString) =>
      let x := code a in
      let y := code b in
      if ((x =? 51)%N && between 48 49 y)
         || (between 49 50 x && between 48 57 y)
         || ((x =? 48)%N && between 49 57 y)
      then Some (10 * digit_value a + digit_value b)
      else if (x =? 32)%N && between 49 57 y then Some (digit_value b)
           else None
  | String a EmptyString =>
      if between 49 57 (code a) then Some (digit_value a) else None
  | _ => None
  end.

Definition strptime_m (s : string) : option Z :=
  match s with
  | String a (String b EmptyString) =>
      let x := code a in
      let y := code b in
      if ((x =? 49)%N && between 48 50 y) || ((x =? 48)%N && between 49 57 y)
      then Some (10 * digit_value a + digit_value b)
      else None
  | String a EmptyString =>
      if between 49 57 (code a) then Some (digit_value a) else None
  | _ => None
  end.

Definition strptime_Y (s : string) : option Z :=
  match s with
  | String a (String b (String c (String d EmptyString))) =>
      if isdecimal_char a && isdecimal_char b && isdecimal_char c
         && isdecimal_char d
      then Some (1000 * digit_value a + 100 * digit_value b
                 + 10 * digit_value c + digit_value d)
      else None
  | _ => None
  end.

(** The library's messages quote the text; the embedding keeps their fixed
    part. *)
Definition strptime_dmY (s : string) : result date :=
  match split_sep "." s with
  | [d; m; y] =>
      match strptime_d d, strptime_m m, strptime_Y y with
      | Some dd, Some mm, Some yy =>
          if valid_date (mkDate yy mm dd) then Return (mkDate yy mm dd)
          else raise ValueError "day is out of range for month"
      | _, _, _ => raise ValueError "time data does not match format '%d.%m.%Y'"
      end
  | _ => raise ValueError "time data does not match format '%d.%m.%Y'"
  end.

(** *** Dictionaries with [str] keys

    A [dict] keeps its items in insertion order: assigning to a key that is
    present keeps its place, assigning to a new key appends. *)

Section Dict.
Context {V : Type}.

Definition dict : Type := list (string * V).

Fixpoint dict_get (k : string) (d : dict) : option V :=
  match d with
  | [] => None
  | (k', v) :: d' => if String.eqb k k' then Some v else dict_get k d'
  end.

Fixpoint dict_set (k : string) (v : V) (d : dict) : dict :=
  match d with
  | [] => [(k, v)]
  | (k', v') :: d' =>
      if String.eqb k k' then (k', v) :: d' else (k', v') :: dict_set k v d'
  end.

Fixpoint dict_del (k : string) (d : dict) : dict :=
  match d with
  | [] => []
  | (k', v') :: d' => if String.eqb k k' then d' else (k', v') :: dict_del k d'
  end.

Definition dict_contains (k : string) (d : dict) : bool :=
  match dict_get k d with Some _ => true | None => false end.

Definition dict_keys (d : dict) : list string := map fst d.

Definition dict_values (d : dict) : list V := map snd d.

End Dict.

Arguments dict V : clear implicits.

End Py.

(** ** Values the program passes to its methods

    The dispatch loop passes single arguments ([args[0]], a [str]) to some
    methods and the whole argument list ([args], a [list] of [str]) to
    others. *)

Inductive pyval : Type :=
| PStr (s : string)
| PList (l : list string).

(** [a == b] *)
Definition pyval_eqb (a b : pyval) : bool :=
  match a, b with
  | PStr s, PStr s' => String.eqb s s'
  | PList l, PList l' => if list_eq_dec string_dec l l' then true else false
  | _, _ => false
  end.

(** [for val in value]: a [str] yields its characters, a [list] its items. *)
Definition iterate (value : pyval) : list string :=
  match value with
  | PStr s => Py.chars s
  | PList l => l
  end.

(** The key a value is looked up under in a [dict]; a [list] has no hash. *)
Definition hash_key (k : pyval) : result string :=
  match k with
  | PStr s => Return s
  | PList _ => raise TypeError "unhashable type: 'list'"
  end.

(** ** class Field *)

Module Field.

Record t (A : Type) : Type := mk { value : A }.

Arguments mk {A} value.
Arguments value {A} _.

Definition init {A : Type} (value : A) : t A := mk value.

End Field.

(** ** class Name(Field) *)

Module Name.

Definition t : Type := Field.t string.

Definition init (value : string) : result t :=
  if Py.is_empty value then raise ValueError "Name cannot be empty"
  else Return (Field.init value).

End Name.

(** ** class Phone(Field) *)

Module Phone.

Definition t : Type := Field.t pyval.

(** The body of the loop of [__init__], for one [val]:
    [if not len(val) != 10 or not val.isdigit(): raise ...] *)
Definition rejects (val : string) : bool :=
  negb (negb (Py.len val =? 10)) || negb (Py.isdigit val).

Fixpoint check (vals : list string) : result unit :=
  match vals with
  | [] => Return tt
  | val :: vals' =>
      if rejects val then raise ValueError "Invalid phone number format"
      else check vals'
  end.

Definition init (value : pyval) : result t :=
  _ <- check (iterate value) ;;
  Return (Field.init value).

End Phone.

(** ** class Birthday(Field) *)

Module Birthday.

Definition t : Type := Field.t string.

(** [day, month, year = value.split('.')], then
    [datetime(int(year), int(month), int(day))] *)
Definition parse (value : string) : result Py.date :=
  match Py.split_sep "." value with
  | [day; month; year] =>
      y <- Py.int year ;;
      m <- Py.int month ;;
      d <- Py.int day ;;
      Py.datetime y m d
  | [] | [_] | [_; _] =>
      raise ValueError
        ("not enough values to unpack (expected 3, got "
         ++ Py.decimal (length (Py.split_sep "." value)) ++ ")")
  | _ => raise ValueError "too many values to unpack (expected 3)"
  end.

(** [except ValueError] replaces the message; any other exception passes. *)
Definition init (value : string) : result t :=
  match parse value with
  | Return _ => Return (Field.init value)
  | Raise e =>
      match kind e with
      | ValueError => raise ValueError "Invalid date format. Use DD.MM.YYYY"
      | _ => Raise e
      end
  end.

End Birthday.

(** ** class Record *)

Module Record_.

Record t : Type := mk {
  name : Name.t;
  phones : list Phone.t;
  birthday : option Birthday.t
}.

(** [__init__(self, name, phone)]: the body never reads [phone]. *)
Definition init (name phone : string) : result t :=
  n <- Name.init name ;;
  Return (mk n [] None).

Definition add_phone (self : t) (phone : pyval) : result t :=
  p <- Phone.init phone ;;
  Return (mk (name self) (phones self ++ [p]) (birthday self)).

Definition remove_phone (self : t) (phone : pyval) : t :=
  mk (name self)
     (filter (fun p => negb (pyval_eqb (Field.value p) phone)) (phones self))
     (birthday self).

(** The loop of [edit_phone]: assign to the first match, then [break]. *)
Fixpoint edit_first (ps : list Phone.t) (old_phone new_phone : pyval)
  : list Phone.t :=
  match ps with
  | [] => []
  | p :: ps' =>
      if pyval_eqb (Field.value p) old_phone
      then Field.mk new_phone :: ps'
      else p :: edit_first ps' old_phone new_phone
  end.

Definition edit_phone (self : t) (old_phone new_phone : pyval) : t :=
  mk (name self) (edit_first (phones self) old_phone new_phone) (birthday self).

Definition find_phone (self : t) (phone : pyval) : option Phone.t :=
  find (fun p => pyval_eqb (Field.value p) phone) (phones self).

(** The items [str.join] is given; it refuses an item that is not a [str]. *)
Fixpoint join_items (i : nat) (ps : list Phone.t) : result (list string) :=
  match ps with
  | [] => Return []
  | p :: ps' =>
      match Field.value p with
      | PStr s => rest <- join_items (S i) ps' ;; Return (s :: rest)
      | PList _ =>
          raise TypeError
            ("sequence item " ++ Py.decimal i
             ++ ": expected str instance, list found")
      end
  end.

(** [__str__] *)
Definition str (self : t) : result string :=
  items <- join_items 0 (phones self) ;;
  Return ("Contact name: " ++ Field.value (name self) ++ ", phones: "
          ++ Py.join "; " items).

Definition add_birthday (self : t) (birthday : string) : result t :=
  match Record_.birthday self with
  | None =>
      b <- Birthday.init birthday ;;
      Return (mk (name self) (phones self) (Some b))
  | Some _ => raise ValueError "Birthday already exists"
  end.

End Record_.

(** ** class AddressBook(UserDict) *)

Module AddressBook.

Definition t : Type := Py.dict Record_.t.

Definition empty : t := [].

(** One item of the list [get_upcoming_birthdays] returns:
    [{"name": ..., "birthday": ...}] *)
Record entry : Type := mkEntry { entry_name : string; entry_birthday : string }.

Definition add_record (name phone : string) (self : t) : result t :=
  r <- Record_.init name phone ;;
  Return (Py.dict_set name r self).

Definition find (name : pyval) (self : t) : result (option Record_.t) :=
  k <- hash_key name ;;
  Return (Py.dict_get k self).

Definition delete (name : pyval) (self : t) : result t :=
  k <- hash_key name ;;
  Return (if Py.dict_contains k self then Py.dict_del k self else self).

Fixpoint strs (records : list Record_.t) : result (list string) :=
  match records with
  | [] => Return []
  | record :: records' =>
      s <- Record_.str record ;;
      rest <- strs records' ;;
      Return (s :: rest)
  end.

Definition newline : string := String (ascii_of_N 10) EmptyString.

(** [__str__] *)
Definition str (self : t) : result string :=
  lines <- strs (Py.dict_values self) ;;
  Return (Py.join newline lines).

(** The condition of [get_upcoming_birthdays]; [and] evaluates its second
    operand, and with it [today + timedelta(days=7)], only when the first
    holds. *)
Definition in_window (today birthday_date : Py.date) : result bool :=
  if Py.date_le today birthday_date
  then limit <- Py.add_days today 7 ;; Return (Py.date_le birthday_date limit)
  else Return false.

Fixpoint upcoming (today : Py.date) (records : list Record_.t)
  : result (list entry) :=
  match records with
  | [] => Return []
  | record :: records' =>
      match Record_.birthday record with
      | None => upcoming today records'
      | Some b =>
          birthday_date <- Py.strptime_dmY (Field.value b) ;;
          keep <- in_window today birthday_date ;;
          rest <- upcoming today records' ;;
          Return (if keep
                  then mkEntry (Field.value (Record_.name record)) (Field.value b)
                       :: rest
                  else rest)
      end
  end.

(** [today] is what [datetime.today().date()] returns during the call. *)
Definition get_upcoming_birthdays (today : Py.date) (self : t)
  : result (list entry) :=
  upcoming today (Py.dict_values self).

End AddressBook.

(** ** Module [pickle]

    The program stores the book with [pickle.dump] and reads it back with
    [pickle.load]. The format is the library's; the embedding takes the pair
    as an interface. *)

Class Pickle : Type := {
  blob : Type;
  pickle_dump : AddressBook.t -> blob;
  pickle_load : blob -> result AddressBook.t
}.

(** What [pickle] promises for the objects of this program. *)
Definition pickle_round_trip (P : Pickle) : Prop :=
  forall book : AddressBook.t, pickle_load (pickle_dump book) = Return book.

(** ** The state the program runs in *)

Section Program.

Context {P : Pickle}.

Record World : Type := mkWorld {
  book : AddressBook.t;          (* the book of [main] *)
  stdout : list string;          (* what was written, oldest first *)
  files : Py.dict blob;          (* the files of the working directory *)
  today : Py.date                (* [datetime.today().date()] *)
}.

Definition M (A : Type) : Type := World -> result A * World.

Definition ret {A : Type} (a : A) : M A := fun w => (Return a, w).

Definition mbind {A B : Type} (m : M A) (k : A -> M B) : M B :=
  fun w =>
    match m w with
    | (Return a, w') => k a w'
    | (Raise e, w') => (Raise e, w')
    end.

Notation "x <~ m ;; k" := (mbind m (fun x => k))
  (at level 61, m at next level, right associativity).

Definition lift {A : Type} (r : result A) : M A := fun w => (r, w).

Definition get_book : M AddressBook.t := fun w => (Return (book w), w).

Definition set_book (b : AddressBook.t) : M unit :=
  fun w => (Return tt, mkWorld b (stdout w) (files w) (today w)).

Definition get_today : M Py.date := fun w => (Return (today w), w).

(** [print(s)] *)
Definition print (s : string) : M unit :=
  fun w => (Return tt, mkWorld (book w) (stdout w ++ [s]) (files w) (today w)).

Definition get_files : M (Py.dict blob) := fun w => (Return (files w), w).

Definition set_files (fs : Py.dict blob) : M unit :=
  fun w => (Return tt, mkWorld (book w) (stdout w) fs (today w)).

(** What a command handler returns: a [str] or [None]. *)
Inductive retval : Type :=
| RStr (s : string)
| RNone.

(** [str(v)] *)
Definition retval_str (v : retval) : string :=
  match v with
  | RStr s => s
  | RNone => "None"
  end.

(** ** def input_error(func) *)

(** The four [except] clauses of [inner], in their order. *)
Definition translate (e : exn) : string :=
  match kind e with
  | ValueError => "ValueError: " ++ message e
  | KeyError => "KeyError: " ++ message e
  | IndexError => "IndexError: " ++ message e
  | _ => "An error occurred: " ++ message e
  end.

(** [inner]: what [func] returns, or the translation of what it raises. *)
Definition input_error (func : list string -> M retval) (args : list string)
  : M retval :=
  fun w =>
    match func args w with
    | (Return v, w') => (Return v, w')
    | (Raise e, w') => (Return (RStr (translate e)), w')
    end.

(** ** The command handlers

    [add_birthday_func], [show_birthday_func] and [birthdays_func] are the
    functions as written; [add_birthday], [show_birthday] and [birthdays]
    are what the decorator binds these names to. *)

(** The record stored under [name], with the key it is stored under. *)
Definition find_record (name : pyval) : M (option (string * Record_.t)) :=
  b <~ get_book ;;
  found <~ lift (AddressBook.find name b) ;;
  match found with
  | None => ret None
  | Some record => k <~ lift (hash_key name) ;; ret (Some (k, record))
  end.

(** A method that changed [record] in place changed the book's item. *)
Definition store_record (k : string) (record : Record_.t) : M unit :=
  b <~ get_book ;;
  set_book (Py.dict_set k record b).

Definition add_birthday_func (args : list string) : M retval :=
  match args with
  | [name; birthday] =>
      found <~ find_record (PStr name) ;;
      match found with
      | Some (k, record) =>
          record' <~ lift (Record_.add_birthday record birthday) ;;
          _ <~ store_record k record' ;;
          ret (RStr "Birthday added.")
      | None => ret (RStr "Contact not found.")
      end
  | [] | [_] =>
      lift (raise ValueError
              ("not enough values to unpack (expected 2, got "
               ++ Py.decimal (length args) ++ ")"))
  | _ => lift (raise ValueError "too many values to unpack (expected 2)")
  end.

(** [name = args]: the name looked up is the argument list itself. *)
Definition show_birthday_func (args : list string) : M retval :=
  found <~ find_record (PList args) ;;
  match found with
  | Some (_, record) =>
      match Record_.birthday record with
      | Some b => ret (RStr (Field.value b))
      | None => ret (RStr "Birthday not set.")
      end
  | None => ret (RStr "Birthday not set.")
  end.

Fixpoint print_birthdays (l : list AddressBook.entry) : M unit :=
  match l with
  | [] => ret tt
  | b :: l' =>
      _ <~ print ("Name: " ++ AddressBook.entry_name b ++ ", Birthday: "
                  ++ AddressBook.entry_birthday b) ;;
      print_birthdays l'
  end.

Definition birthdays_func (args : list string) : M retval :=
  b <~ get_book ;;
  d <~ get_today ;;
  upcoming_birthdays <~ lift (AddressBook.get_upcoming_birthdays d b) ;;
  _ <~ match upcoming_birthdays with
       | [] => print "No upcoming birthdays."
       | _ => print_birthdays upcoming_birthdays
       end ;;
  ret RNone.

Definition add_birthday : list string -> M retval := input_error add_birthday_func.

Definition show_birthday : list string -> M retval := input_error show_birthday_func.

Definition birthdays : list string -> M retval := input_error birthdays_func.

(** ** def parse_input(user_input) *)

Definition parse_input (user_input : string) : result (string * list string) :=
  match Py.split user_input with
  | cmd :: args => Return (Py.lower (Py.strip cmd), args)
  | [] => raise ValueError "not enough values to unpack (expected at least 1, got 0)"
  end.

(** ** Persistence *)

Definition default_filename : string := "addressbook.pkl".

(** [open(filename, "wb")] creates the file or replaces its content. *)
Definition save_data (b : AddressBook.t) (filename : string) : M unit :=
  fs <~ get_files ;;
  set_files (Py.dict_set filename (pickle_dump b) fs).

(** [open(filename, "rb")] *)
Definition open_rb (filename : string) : M blob :=
  fs <~ get_files ;;
  match Py.dict_get filename fs with
  | Some content => ret content
  | None => lift (raise FileNotFoundError "No such file or directory")
  end.

Definition load_data (filename : string) : M AddressBook.t :=
  fun w =>
    match (content <~ open_rb filename ;; lift (pickle_load content)) w with
    | (Return b, w') => (Return b, w')
    | (Raise e, w') =>
        match kind e with
        | FileNotFoundError => (Return AddressBook.empty, w')
        | _ => (Raise e, w')
        end
    end.

(** ** def main()

    [main_body] is one turn of the [while True] loop after [input] has
    returned [user_input]; it says whether the loop goes on. An exception it
    raises is caught nowhere and ends the program. *)

Inductive control : Type :=
| Continue
| Break.

Definition say (s : string) : M control :=
  _ <~ print s ;;
  ret Continue.

Definition main_body (user_input : string) : M control :=
  parsed <~ lift (parse_input user_input) ;;
  let command := fst parsed in
  let args := snd parsed in
  if existsb (String.eqb command) ["close"; "exit"] then
    b <~ get_book ;;
    _ <~ save_data b default_filename ;;
    _ <~ print "Good bye!" ;;
    ret Break
  else if String.eqb command "hello" then
    say "How can I help you?"
  else if String.eqb command "add" then
    match args with
    | [name; phone] =>
        b <~ get_book ;;
        b' <~ lift (AddressBook.add_record name phone b) ;;
        _ <~ set_book b' ;;
        say "Contact added."
    | _ => say "Invalid input format. Use 'add name phone'."
    end
  else if String.eqb command "change" then
    match args with
    | [_; _; _] =>
        found <~ find_record (PList args) ;;
        match found with
        | Some (k, record) =>
            _ <~ store_record k
                   (Record_.edit_phone record (PList args) (PList args)) ;;
            say "Phone changed."
        | None => say "Contact not found."
        end
    | _ => say "Invalid input format. Use 'change name old_phone new_phone'."
    end
  else if String.eqb command "phone" then
    match args with
    | [_] =>
        found <~ find_record (PList args) ;;
        match found with
        | Some (_, record) => s <~ lift (Record_.str record) ;; say s
        | None => say "Contact not found."
        end
    | _ => say "Invalid input format. Use 'phone name'."
    end
  else if String.eqb command "all" then
    b <~ get_book ;;
    s <~ lift (AddressBook.str b) ;;
    say s
  else if String.eqb command "add-birthday" then
    match args with
    | [_; _] => v <~ add_birthday args ;; say (retval_str v)
    | _ => say "Invalid input format. Use 'add-birthday name birthday'."
    end
  else if String.eqb command "show-birthday" then
    match args with
    | [_] => v <~ show_birthday args ;; say (retval_str v)
    | _ => say "Invalid input format. Use 'show-birthday name'."
    end
  else if String.eqb command "birthdays" then
    _ <~ birthdays args ;;
    ret Continue
  else say "Invalid command.".

(** The loop, given the lines [input] will return; at the end of the input
    [input] raises [EOFError]. *)
Fixpoint main_loop (inputs : list string) : M unit :=
  _ <~ print "Enter a command: " ;;
  match inputs with
  | [] => lift (raise EOFError "EOF when reading a line")
  | user_input :: inputs' =>
      c <~ main_body user_input ;;
      match c with
      | Break => ret tt
      | Continue => main_loop inputs'
      end
  end.

Definition main (inputs : list string) : M unit :=
  b <~ load_data default_filename ;;
  _ <~ set_book b ;;
  _ <~ print "Welcome to the assistant bot!" ;;
  main_loop inputs.

End Program.

(** A sequence of the book's operations, for the invariants of the book. *)
Inductive book_op : Type :=
| OpAdd (name phone : string)
| OpDelete (name : pyval)
| OpFind (name : pyval).

(** An operation that raises leaves the book as it was. *)
Definition run_op (b : AddressBook.t) (op : book_op) : AddressBook.t :=
  match op with
  | OpAdd name phone =>
      match AddressBook.add_record name phone b with
      | Return b' => b'
      | Raise _ => b
      end
  | OpDelete name =>
      match AddressBook.delete name b with
      | Return b' => b'
      | Raise _ => b
      end
  | OpFind _ => b
  end.


(** A pickle that stores the object itself: an instance of the interface. *)
Definition object_pickle : Pickle :=
  {| blob := AddressBook.t;
     pickle_dump := fun b => b;
     pickle_load := fun b => Return b |}.


(** The state of a record after a call of one of its methods: a call that
    raises has not assigned to the record. *)
Definition after (self : Record_.t) (r : result Record_.t) : Record_.t :=
  match r with
  | Return self' => self'
  | Raise _ => self
  end.

(** All characters of [s] are among [0123456789]. *)
Definition ascii_digits (s : string) : bool := Py.all_chars Py.isdecimal_char s.

(** The invariant of the book: every item's key is the name of its record,
    no key is empty, and no key occurs twice. *)
Definition keyed_by_name (b : AddressBook.t) : Prop :=
  Forall (fun kr => Field.value (Record_.name (snd kr)) = fst kr
                    /\ fst kr <> EmptyString) b
  /\ NoDup (Py.dict_keys b).

(** ** Auxiliary notions for the calendar and the birthday query *)

Definition year_length (y : Z) : Z := if Py.is_leap y then 366 else 365.

(** The month and the day [ord2ymd] computes for the day of index [n] of a
    year. *)
Definition within_year (leapyear : bool) (n : Z) : Z * Z :=
  let m := Z.shiftr (n + 50) 5 in
  let preceding :=
    Py.DAYS_BEFORE_MONTH m + (if (2 <? m) && leapyear then 1 else 0) in
  if n <? preceding
  then
    let m' := m - 1 in
    let preceding' :=
      preceding
      - (Py.DAYS_IN_MONTH m' + (if (m' =? 2) && leapyear then 1 else 0)) in
    (m', n - preceding' + 1)
  else (m, n - preceding + 1).

(** That month and day are a date of the year, the one of index [n]. *)
Definition within_year_ok (leapyear : bool) (n : Z) : bool :=
  let m := fst (within_year leapyear n) in
  let d := snd (within_year leapyear n) in
  (1 <=? m) && (m <=? 12) && (1 <=? d)
  && (d <=? (if (m =? 2) && leapyear then 29 else Py.DAYS_IN_MONTH m))
  && (Py.DAYS_BEFORE_MONTH m + (if (2 <? m) && leapyear then 1 else 0) + d
      =? n + 1).

(** The stored date, year included, lies between [today] and [limit]. *)
Definition stored_in_window (today limit : Py.date) (value : string) : bool :=
  match Py.strptime_dmY value with
  | Return d => Py.date_le today d && Py.date_le d limit
  | Raise _ => false
  end.

(** The items of the records whose stored date lies in the window, in the
    order of the records. *)
Fixpoint stored_upcoming (today limit : Py.date) (records : list Record_.t)
  : list AddressBook.entry :=
  match records with
  | [] => []
  | record :: records' =>
      match Record_.birthday record with
      | Some b =>
          if stored_in_window today limit (Field.value b)
          then AddressBook.mkEntry (Field.value (Record_.name record))
                                   (Field.value b)
               :: stored_upcoming today limit records'
          else stored_upcoming today limit records'
      | None => stored_upcoming today limit records'
      end
  end.

(** Every birthday of [records] is text [strptime] reads as [%d.%m.%Y]. *)
Definition birthdays_parse (records : list Record_.t) : Prop :=
  Forall (fun r => forall b : Birthday.t,
              Record_.birthday r = Some b ->
              returns (Py.strptime_dmY (Field.value b)) = true) records.

(** As the specification words it: the date of this year that has the month
    and the day of the stored one lies between [today] and [today] plus seven
    days. *)
Definition spec_this_year_in_window (today : Py.date) (value : string)
  : result bool :=
  d <- Py.strptime_dmY value ;;
  limit <- Py.add_days today 7 ;;
  let this_year := Py.mkDate (Py.year today) (Py.month d) (Py.day d) in
  Return (Py.date_le today this_year && Py.date_le this_year limit).

(** ** Auxiliary notions for the dispatch loop *)

(** The world after [print(s)]. *)
Definition printed {P : Pickle} (w : World) (s : string) : World :=
  mkWorld (book w) (stdout w ++ [s]) (files w) (today w).

(** The world with another book. *)
Definition with_book {P : Pickle} (w : World) (b : AddressBook.t) : World :=
  mkWorld b (stdout w) (files w) (today w).

(** The world after [save_data(book)] and the farewell. *)
Definition closed {P : Pickle} (w : World) : World :=
  mkWorld (book w) (stdout w ++ ["Good bye!"])
          (Py.dict_set default_filename (pickle_dump (book w)) (files w))
          (today w).

(** The commands the loop knows. *)
Definition known_commands : list string :=
  ["close"; "exit"; "hello"; "add"; "change"; "phone"; "all";
   "add-birthday"; "show-birthday"; "birthdays"].

(** The commands that take arguments: the number of arguments [main]
    asks for and the message it prints for any other number. *)
Definition usage_table : list (string * nat * string) :=
  [("add", 2%nat, "Invalid input format. Use 'add name phone'.");
   ("change", 3%nat,
    "Invalid input format. Use 'change name old_phone new_phone'.");
   ("phone", 1%nat, "Invalid input format. Use 'phone name'.");
   ("add-birthday", 2%nat,
    "Invalid input format. Use 'add-birthday name birthday'.");
   ("show-birthday", 1%nat, "Invalid input format. Use 'show-birthday name'.")].

(** ** Sample data *)

(** The record [Record("Ann", "1234567890")] builds. *)
Definition ann_new : Record_.t := Record_.mk (Field.mk "Ann") [] None.

(** A record with one phone, as [add_phone("1234567890")] leaves it. *)
Definition ann : Record_.t :=
  Record_.mk (Field.mk "Ann") [Field.mk (PStr "1234567890")] None.

Definition bob : Record_.t :=
  Record_.mk (Field.mk "Bob") [Field.mk (PStr "5550100")]
             (Some (Field.mk "24.12.2001")).

Definition two_contacts : AddressBook.t := [("Ann", ann); ("Bob", bob)].

Definition a_day : Py.date := Py.mkDate 2026 11 3.

(** Born on 6 November 1990: three days after [a_day], thirty-six years
    earlier. *)
Definition ann_1990 : Record_.t :=
  Record_.mk (Field.mk "Ann") [] (Some (Field.mk "06.11.1990")).

(** Records whose stored dates are [a_day] plus 3 and plus 10 days. *)
Definition cy_soon : Record_.t :=
  Record_.mk (Field.mk "Cy") [] (Some (Field.mk "06.11.2026")).

Definition di_later : Record_.t :=
  Record_.mk (Field.mk "Di") [] (Some (Field.mk "13.11.2026")).

Definition soon_and_later : AddressBook.t := [("Cy", cy_soon); ("Di", di_later)].

(** The one-character text made of U+00B2, superscript two: a digit for
    [str.isdigit], not one of [0123456789]. *)
Definition superscript_two : string := String (ascii_of_N 178) EmptyString.

(** A record with four phones, two of them equal. *)
Definition eve : Record_.t :=
  Record_.mk (Field.mk "Eve")
             [Field.mk (PStr "1"); Field.mk (PStr "2"); Field.mk (PStr "3");
              Field.mk (PStr "2")]
             None.

Definition sample_world : @World object_pickle :=
  mkWorld [("Ann", ann)] [] [] a_day.

(** * Properties *)

(** ** Characters and strings *)

Lemma isdecimal_isdigit (c : ascii) :
  Py.isdecimal_char c = true -> Py.isdigit_char c = true.
Proof.
  unfold Py.isdigit_char. intros ->. reflexivity.
Qed.

Lemma ascii_digits_all_digits (s : string) :
  ascii_digits s = true -> Py.all_chars Py.isdigit_char s = true.
Proof.
  unfold ascii_digits.
  induction s as [|c s IH]; simpl; [reflexivity|].
  intros H. apply andb_true_iff in H as [Hc Hs].
  rewrite (isdecimal_isdigit c Hc), (IH Hs). reflexivity.
Qed.

Lemma len_length (s : string) (n : nat) :
  String.length s = n -> Py.len s = Z.of_nat n.
Proof. unfold Py.len. intros ->. reflexivity. Qed.

Lemma isdigit_nonempty (s : string) :
  s <> EmptyString ->
  Py.isdigit s = Py.all_chars Py.isdigit_char s.
Proof.
  destruct s; [congruence|]. reflexivity.
Qed.

(** ** Phone *)

(** One character is refused exactly when it is not a digit: its length is
    1, not 10. *)
Lemma rejects_char (c : ascii) :
  Phone.rejects (String c EmptyString) = negb (Py.isdigit_char c).
Proof.
  unfold Phone.rejects, Py.isdigit, Py.len. simpl.
  rewrite andb_true_r. reflexivity.
Qed.

Lemma check_chars_ok (s : string) :
  Py.all_chars Py.isdigit_char s = true ->
  Phone.check (Py.chars s) = Return tt.
Proof.
  induction s as [|c s IH]; simpl; [reflexivity|].
  intros H. apply andb_true_iff in H as [Hc Hs].
  rewrite rejects_char, Hc. simpl. exact (IH Hs).
Qed.

Lemma check_chars_raises (s : string) :
  Py.all_chars Py.isdigit_char s = false ->
  Phone.check (Py.chars s) = raise ValueError "Invalid phone number format".
Proof.
  induction s as [|c s IH]; simpl; [discriminate|].
  intros H. rewrite rejects_char.
  destruct (Py.isdigit_char c); simpl in *; [exact (IH H)|reflexivity].
Qed.

(** [Phone(p)] for a [str]: only the characters are looked at. *)
Lemma Phone_init_str (p : string) :
  Phone.init (PStr p) =
  if Py.all_chars Py.isdigit_char p then Return (Field.mk (PStr p))
  else raise ValueError "Invalid phone number format".
Proof.
  unfold Phone.init. simpl iterate.
  destruct (Py.all_chars Py.isdigit_char p) eqn:H.
  - rewrite (check_chars_ok p H). reflexivity.
  - rewrite (check_chars_raises p H). reflexivity.
Qed.

(** [Phone([p])] for one candidate: the candidate is refused when its length
    is 10 or when it is not made of digits. *)
Lemma Phone_init_candidate (p : string) :
  Phone.init (PList [p]) =
  if (Py.len p =? 10) || negb (Py.isdigit p)
  then raise ValueError "Invalid phone number format"
  else Return (Field.mk (PList [p])).
Proof.
  unfold Phone.init. simpl. unfold Phone.rejects.
  rewrite negb_involutive.
  destruct ((Py.len p =? 10) || negb (Py.isdigit p)); reflexivity.
Qed.

(** A candidate that is not made of digits is refused, whatever its
    length. *)
Lemma Phone_init_list_non_digit (p : string) :
  Py.isdigit p = false ->
  Phone.init (PList [p]) = raise ValueError "Invalid phone number format".
Proof.
  intros H. rewrite Phone_init_candidate, H, orb_true_r. reflexivity.
Qed.

(** C1 (the code departs from the claim). A candidate of ten ASCII digits is
    exactly what [Phone([p])] refuses, and a shorter or longer candidate made
    of ASCII digits is what it accepts: the test on the length is inverted. *)
Theorem Phone_init_list_length_inverted (p : string) :
  ascii_digits p = true ->
  p <> EmptyString ->
  (String.length p = 10%nat ->
   Phone.init (PList [p]) = raise ValueError "Invalid phone number format")
  /\ (String.length p <> 10%nat ->
      Phone.init (PList [p]) = Return (Field.mk (PList [p]))).
Proof.
  intros Hd Hne.
  rewrite Phone_init_candidate, (isdigit_nonempty p Hne),
    (ascii_digits_all_digits p Hd).
  simpl negb. rewrite orb_false_r. split; intros Hlen.
  - rewrite (len_length p 10 Hlen). reflexivity.
  - destruct (Py.len p =? 10) eqn:E; [|reflexivity].
    apply Z.eqb_eq in E. unfold Py.len in E. lia.
Qed.

Lemma Phone_init_list_length_inverted_witness :
  Phone.init (PList ["1234567890"])
  = raise ValueError "Invalid phone number format"
  /\ Phone.init (PList ["123"]) = Return (Field.mk (PList ["123"])).
Proof.
  split.
  - apply (Phone_init_list_length_inverted "1234567890");
      [reflexivity | discriminate | reflexivity].
  - apply (Phone_init_list_length_inverted "123");
      [reflexivity | discriminate | simpl; lia].
Defined.

(** ** Record: phones *)

Lemma pyval_eqb_refl (v : pyval) : pyval_eqb v v = true.
Proof.
  destruct v as [s|l]; simpl.
  - apply String.eqb_refl.
  - destruct (list_eq_dec string_dec l l); congruence.
Qed.

Lemma pyval_eqb_eq (a b : pyval) : pyval_eqb a b = true <-> a = b.
Proof.
  split; [|intros ->; apply pyval_eqb_refl].
  destruct a as [s|l], b as [s'|l']; simpl; try discriminate.
  - intros H. apply String.eqb_eq in H. congruence.
  - destruct (list_eq_dec string_dec l l'); [congruence|discriminate].
Qed.

(** No phone equals [old]: the list is left as it is. *)
Lemma edit_first_absent (ps : list Phone.t) (old new : pyval) :
  Forall (fun p => Field.value p <> old) ps ->
  Record_.edit_first ps old new = ps.
Proof.
  induction 1 as [|p ps Hp _ IH]; simpl; [reflexivity|].
  destruct (pyval_eqb (Field.value p) old) eqn:E.
  - apply pyval_eqb_eq in E. contradiction.
  - now rewrite IH.
Qed.

(** The first phone equal to [old] gets the value [new]; the phones before
    and after it stay. *)
Lemma edit_first_present (before after_ : list Phone.t) (p : Phone.t)
      (old new : pyval) :
  Forall (fun q => Field.value q <> old) before ->
  Field.value p = old ->
  Record_.edit_first (before ++ p :: after_)%list old new
  = (before ++ Field.mk new :: after_)%list.
Proof.
  intros Hb Hp. induction Hb as [|q qs Hq _ IH]; simpl.
  - rewrite Hp, pyval_eqb_refl. reflexivity.
  - destruct (pyval_eqb (Field.value q) old) eqn:E.
    + apply pyval_eqb_eq in E. contradiction.
    + now rewrite IH.
Qed.

(** C10, counterexample. Superscript two is not an ASCII digit, and yet
    [add_phone] does not refuse the text made of it: [str.isdigit] holds of
    it, so the phone is appended. *)
Lemma add_phone_superscript_counterexample :
  ~ (ascii_digits superscript_two = false ->
     Record_.add_phone ann_new (PStr superscript_two)
     = raise ValueError "Invalid phone number format").
Proof.
  intros H. specialize (H eq_refl). discriminate H.
Qed.

(** C10, as amended. [add_phone(p)] for a [str] whose characters are all
    digits for [str.isdigit], of any length, the empty one included, appends
    a phone whose value is [p]; the texts of ASCII digits are among them. For
    a [str] with a character [str.isdigit] refuses it raises the validation
    error and the phone list stays as it was. *)
Theorem add_phone_checks_characters_only (self : Record_.t) (p : string) :
  (Py.all_chars Py.isdigit_char p = true ->
   Record_.add_phone self (PStr p)
   = Return (Record_.mk (Record_.name self)
                        (Record_.phones self ++ [Field.mk (PStr p)])%list
                        (Record_.birthday self)))
  /\ (ascii_digits p = true -> Py.all_chars Py.isdigit_char p = true)
  /\ (Py.all_chars Py.isdigit_char p = false ->
      Record_.add_phone self (PStr p)
      = raise ValueError "Invalid phone number format"
      /\ Record_.phones (after self (Record_.add_phone self (PStr p)))
         = Record_.phones self).
Proof.
  unfold Record_.add_phone. rewrite Phone_init_str.
  split; [|split]; intros H.
  - rewrite H. reflexivity.
  - exact (ascii_digits_all_digits p H).
  - rewrite H. split; reflexivity.
Qed.

Lemma add_phone_checks_characters_only_witness :
  Record_.add_phone ann_new (PStr EmptyString)
  = Return (Record_.mk (Field.mk "Ann") [Field.mk (PStr EmptyString)] None)
  /\ Record_.add_phone ann_new (PStr "123")
     = Return (Record_.mk (Field.mk "Ann") [Field.mk (PStr "123")] None)
  /\ Record_.add_phone ann_new (PStr superscript_two)
     = Return (Record_.mk (Field.mk "Ann") [Field.mk (PStr superscript_two)] None)
  /\ Record_.add_phone ann_new (PStr "12a45")
     = raise ValueError "Invalid phone number format".
Proof.
  split; [|split; [|split]].
  - apply (add_phone_checks_characters_only ann_new EmptyString).
    apply (add_phone_checks_characters_only ann_new EmptyString). reflexivity.
  - apply (add_phone_checks_characters_only ann_new "123").
    apply (add_phone_checks_characters_only ann_new "123"). reflexivity.
  - apply (add_phone_checks_characters_only ann_new superscript_two).
    reflexivity.
  - apply (add_phone_checks_characters_only ann_new "12a45"). reflexivity.
Defined.

(** C6 (the code departs from the claim). [edit_phone(old, new)] assigns
    [new] to the first phone equal to [old] without validating it: a value
    that [Phone] refuses is stored. *)
Theorem edit_phone_stores_unvalidated :
  (forall (name : Name.t) (old new : pyval) (rest : list Phone.t)
          (bday : option Birthday.t),
      Record_.phones
        (Record_.edit_phone (Record_.mk name (Field.mk old :: rest) bday) old new)
      = Field.mk new :: rest)
  /\ Phone.init (PStr "abc") = raise ValueError "Invalid phone number format"
  /\ Record_.edit_phone ann (PStr "1234567890") (PStr "abc")
     = Record_.mk (Field.mk "Ann") [Field.mk (PStr "abc")] None.
Proof.
  split; [|split; reflexivity].
  intros name old new rest bday. simpl.
  rewrite pyval_eqb_refl. reflexivity.
Qed.

(** ** Record: birthday *)

Lemma Birthday_init_value (b : string) :
  returns (Birthday.init b) = true -> Birthday.init b = Return (Field.mk b).
Proof.
  unfold Birthday.init.
  destruct (Birthday.parse b) as [d|e]; [reflexivity|].
  destruct (kind e); discriminate.
Qed.

(** C5. On a record without a birthday, [add_birthday] with a date string
    that [Birthday] accepts sets the birthday and keeps the name and the
    phones; any further [add_birthday] raises [ValueError] with the message
    [Birthday already exists] and the stored birthday stays. *)
Theorem add_birthday_sets_once (self : Record_.t) (b : string) :
  Record_.birthday self = None ->
  returns (Birthday.init b) = true ->
  Record_.add_birthday self b
  = Return (Record_.mk (Record_.name self) (Record_.phones self)
                       (Some (Field.mk b)))
  /\ forall b2 : string,
      Record_.add_birthday (after self (Record_.add_birthday self b)) b2
      = raise ValueError "Birthday already exists"
      /\ Record_.birthday
           (after (after self (Record_.add_birthday self b))
                  (Record_.add_birthday
                     (after self (Record_.add_birthday self b)) b2))
         = Some (Field.mk b).
Proof.
  intros Hnone Hok.
  assert (E : Record_.add_birthday self b
              = Return (Record_.mk (Record_.name self) (Record_.phones self)
                                   (Some (Field.mk b)))).
  { unfold Record_.add_birthday.
    rewrite Hnone, (Birthday_init_value b Hok). reflexivity. }
  rewrite E. split; [reflexivity|].
  intros b2. split; reflexivity.
Qed.

Lemma add_birthday_sets_once_witness :
  Record_.add_birthday ann "06.11.1990"
  = Return (Record_.mk (Field.mk "Ann") [Field.mk (PStr "1234567890")]
                       (Some (Field.mk "06.11.1990")))
  /\ Record_.add_birthday
       (after ann (Record_.add_birthday ann "06.11.1990")) "07.11.1990"
     = raise ValueError "Birthday already exists".
Proof.
  destruct (add_birthday_sets_once ann "06.11.1990") as [H1 H2];
    [reflexivity | reflexivity |].
  split; [exact H1 | exact (proj1 (H2 "07.11.1990"))].
Defined.

(** ** Dictionaries *)

Section DictFacts.
Context {V : Type}.
Implicit Types (d : Py.dict V) (k : string) (v : V).

Lemma dict_get_set_same d k v : Py.dict_get k (Py.dict_set k v d) = Some v.
Proof.
  induction d as [|[k' v'] d IH]; simpl.
  - now rewrite String.eqb_refl.
  - destruct (String.eqb k k') eqn:E; simpl; rewrite E; [reflexivity|exact IH].
Qed.

Lemma dict_get_set_other d k k' v :
  k' <> k -> Py.dict_get k' (Py.dict_set k v d) = Py.dict_get k' d.
Proof.
  intros Hne. induction d as [|[k0 v0] d IH]; simpl.
  - destruct (String.eqb k' k) eqn:E; [|reflexivity].
    apply String.eqb_eq in E. contradiction.
  - destruct (String.eqb k k0) eqn:E; simpl.
    + apply String.eqb_eq in E. subst k0.
      destruct (String.eqb k' k) eqn:E'; [|reflexivity].
      apply String.eqb_eq in E'. contradiction.
    + now rewrite IH.
Qed.

Lemma dict_contains_keys d k :
  Py.dict_contains k d = true <-> In k (Py.dict_keys d).
Proof.
  unfold Py.dict_contains, Py.dict_keys.
  induction d as [|[k' v'] d IH]; simpl.
  - split; [discriminate|contradiction].
  - destruct (String.eqb k k') eqn:E.
    + apply String.eqb_eq in E. subst. split; auto.
    + rewrite IH. split; [auto|].
      intros [H|H]; [|exact H].
      subst k'. rewrite String.eqb_refl in E. discriminate.
Qed.

(** Assigning to a key that is present keeps the keys and their order. *)
Lemma dict_keys_set_present d k v :
  Py.dict_contains k d = true ->
  Py.dict_keys (Py.dict_set k v d) = Py.dict_keys d.
Proof.
  unfold Py.dict_contains, Py.dict_keys.
  induction d as [|[k' v'] d IH]; simpl; [discriminate|].
  destruct (String.eqb k k') eqn:E; simpl; [reflexivity|].
  intros H. now rewrite IH.
Qed.

(** Assigning to a new key appends it. *)
Lemma dict_keys_set_absent d k v :
  Py.dict_contains k d = false ->
  Py.dict_keys (Py.dict_set k v d) = (Py.dict_keys d ++ [k])%list.
Proof.
  unfold Py.dict_contains, Py.dict_keys.
  induction d as [|[k' v'] d IH]; simpl; [reflexivity|].
  destruct (String.eqb k k') eqn:E; simpl; [discriminate|].
  intros H. now rewrite IH.
Qed.

Lemma dict_set_In d k v (kv : string * V) :
  In kv (Py.dict_set k v d) -> kv = (k, v) \/ In kv d.
Proof.
  induction d as [|[k' v'] d IH]; simpl.
  - intros [H|[]]. now left.
  - destruct (String.eqb k k') eqn:E; simpl.
    + apply String.eqb_eq in E. subst k'. intros [H|H]; auto.
    + intros [H|H]; auto. destruct (IH H); auto.
Qed.

Lemma dict_del_In d k (kv : string * V) :
  In kv (Py.dict_del k d) -> In kv d.
Proof.
  induction d as [|[k' v'] d IH]; simpl; [auto|].
  destruct (String.eqb k k'); simpl; [auto|].
  intros [H|H]; auto.
Qed.

Lemma dict_del_keys_In d k k0 :
  In k0 (Py.dict_keys (Py.dict_del k d)) -> In k0 (Py.dict_keys d).
Proof.
  unfold Py.dict_keys. rewrite !in_map_iff.
  intros [kv [H1 H2]]. exists kv. split; [exact H1|].
  now apply dict_del_In with (k := k).
Qed.

Lemma dict_del_NoDup d k :
  NoDup (Py.dict_keys d) -> NoDup (Py.dict_keys (Py.dict_del k d)).
Proof.
  induction d as [|[k' v'] d IH]; simpl; [auto|].
  intros H. inversion H as [|? ? Hnotin Hnd]; subst.
  destruct (String.eqb k k'); simpl; [exact Hnd|].
  constructor; [|exact (IH Hnd)].
  intros Hin. apply Hnotin. now apply dict_del_keys_In with (k := k).
Qed.

Lemma dict_set_NoDup d k v :
  NoDup (Py.dict_keys d) -> NoDup (Py.dict_keys (Py.dict_set k v d)).
Proof.
  intros Hnd. destruct (Py.dict_contains k d) eqn:E.
  - now rewrite dict_keys_set_present.
  - rewrite dict_keys_set_absent by exact E.
    apply NoDup_app; [exact Hnd | repeat constructor; simpl; tauto |].
    intros x Hx [Hk|[]]. subst x.
    apply dict_contains_keys in Hx. congruence.
Qed.

(** With distinct keys, an item of the list is what [get] finds. *)
Lemma dict_get_In d k v :
  NoDup (Py.dict_keys d) -> In (k, v) d -> Py.dict_get k d = Some v.
Proof.
  induction d as [|[k' v'] d IH]; simpl; [contradiction|].
  intros Hnd [H|H].
  - inversion H; subst. now rewrite String.eqb_refl.
  - inversion Hnd as [|? ? Hnotin Hnd']; subst.
    destruct (String.eqb k k') eqn:E.
    + apply String.eqb_eq in E. subst k'. exfalso. apply Hnotin.
      unfold Py.dict_keys. apply in_map_iff. now exists (k, v).
    + now apply IH.
Qed.

Lemma dict_get_Some_In d k v : Py.dict_get k d = Some v -> In (k, v) d.
Proof.
  induction d as [|[k' v'] d IH]; simpl; [discriminate|].
  destruct (String.eqb k k') eqn:E.
  - apply String.eqb_eq in E. subst. intros [= ->]. now left.
  - auto.
Qed.

End DictFacts.

(** ** AddressBook *)

Lemma Record_init_nonempty (name phone : string) :
  name <> EmptyString ->
  Record_.init name phone = Return (Record_.mk (Field.mk name) [] None).
Proof.
  intros H. unfold Record_.init, Name.init.
  destruct name; [congruence|reflexivity].
Qed.

Lemma Record_init_empty (phone : string) :
  Record_.init EmptyString phone = raise ValueError "Name cannot be empty".
Proof. reflexivity. Qed.

Lemma add_record_nonempty (name phone : string) (b : AddressBook.t) :
  name <> EmptyString ->
  AddressBook.add_record name phone b
  = Return (Py.dict_set name (Record_.mk (Field.mk name) [] None) b).
Proof.
  intros H. unfold AddressBook.add_record.
  now rewrite Record_init_nonempty.
Qed.

(** C2 (the code departs from the claim). [add_record(n, p)] stores under
    [n] a record whose phone list is empty, whatever [p] is: [Record.__init__]
    never uses its [phone]. The record found under [n] prints without any
    phone. *)
Theorem add_record_drops_phone (name phone : string) (b : AddressBook.t) :
  name <> EmptyString ->
  exists b' : AddressBook.t,
    AddressBook.add_record name phone b = Return b'
    /\ AddressBook.find (PStr name) b'
       = Return (Some (Record_.mk (Field.mk name) [] None))
    /\ Record_.str (Record_.mk (Field.mk name) [] None)
       = Return ("Contact name: " ++ name ++ ", phones: ").
Proof.
  intros H. eexists. split; [apply add_record_nonempty; exact H|].
  split; [|reflexivity].
  unfold AddressBook.find. simpl. now rewrite dict_get_set_same.
Qed.

Lemma add_record_drops_phone_witness :
  exists b' : AddressBook.t,
    AddressBook.add_record "Ann" "1234567890" AddressBook.empty = Return b'
    /\ AddressBook.find (PStr "Ann") b' = Return (Some ann_new)
    /\ Record_.str ann_new = Return "Contact name: Ann, phones: ".
Proof.
  apply (add_record_drops_phone "Ann" "1234567890" AddressBook.empty).
  discriminate.
Defined.


Lemma keyed_by_name_add (name phone : string) (b : AddressBook.t) :
  keyed_by_name b -> keyed_by_name (run_op b (OpAdd name phone)).
Proof.
  intros [Hall Hnd]. simpl.
  destruct name as [|c name'].
  - unfold AddressBook.add_record. rewrite Record_init_empty. now split.
  - rewrite add_record_nonempty by discriminate. split.
    + apply Forall_forall. intros kr Hin.
      apply dict_set_In in Hin as [->|Hin].
      * simpl. split; [reflexivity|discriminate].
      * rewrite Forall_forall in Hall. now apply Hall.
    + now apply dict_set_NoDup.
Qed.




Lemma keyed_by_name_get (b : AddressBook.t) (k : string) (r : Record_.t) :
  keyed_by_name b ->
  Py.dict_get k b = Some r ->
  Field.value (Record_.name r) = k /\ k <> EmptyString.
Proof.
  intros [Hall _] Hget. apply dict_get_Some_In in Hget.
  rewrite Forall_forall in Hall. exact (Hall _ Hget).
Qed.



(** ** The dispatch loop *)

Section Dispatch.
Context {P : Pickle}.
Implicit Types (w : World) (args : list string).

(** Looking a list up raises before the book is read. *)
Lemma find_record_list args w :
  find_record (PList args) w = (raise TypeError "unhashable type: 'list'", w).
Proof. reflexivity. Qed.

Lemma main_body_change (user_input : string) args w :
  parse_input user_input = Return ("change", args) ->
  length args = 3%nat ->
  main_body user_input w = (raise TypeError "unhashable type: 'list'", w).
Proof.
  intros Hp Hlen. unfold main_body, mbind, lift. rewrite Hp. simpl.
  destruct args as [|a [|b [|c [|x args]]]]; try discriminate.
  reflexivity.
Qed.

Lemma main_body_phone (user_input : string) args w :
  parse_input user_input = Return ("phone", args) ->
  length args = 1%nat ->
  main_body user_input w = (raise TypeError "unhashable type: 'list'", w).
Proof.
  intros Hp Hlen. unfold main_body, mbind, lift. rewrite Hp. simpl.
  destruct args as [|a [|x args]]; try discriminate.
  reflexivity.
Qed.





End Dispatch.

(** C3 (the code departs from the claim). A [change] line with three
    arguments and a [phone] line with one argument look up the whole argument
    list, not the name: the lookup raises [TypeError] before the book is read,
    nothing is printed or changed, and the exception leaves the loop. *)
Theorem change_and_phone_look_up_the_list
        (P : Pickle) (user_input : string) (args : list string) (w : World) :
  (parse_input user_input = Return ("change", args) ->
   length args = 3%nat ->
   main_body user_input w = (raise TypeError "unhashable type: 'list'", w))
  /\ (parse_input user_input = Return ("phone", args) ->
      length args = 1%nat ->
      main_body user_input w = (raise TypeError "unhashable type: 'list'", w)).
Proof.
  split; [apply main_body_change | apply main_body_phone].
Qed.

Lemma change_and_phone_look_up_the_list_witness :
  main_body "change Ann 1234567890 0987654321" sample_world
  = (raise TypeError "unhashable type: 'list'", sample_world)
  /\ main_body "phone Ann" sample_world
     = (raise TypeError "unhashable type: 'list'", sample_world).
Proof.
  split.
  - apply (proj1 (change_and_phone_look_up_the_list
                    object_pickle "change Ann 1234567890 0987654321"
                    ["Ann"; "1234567890"; "0987654321"] sample_world));
      reflexivity.
  - apply (proj2 (change_and_phone_look_up_the_list
                    object_pickle "phone Ann" ["Ann"] sample_world));
      reflexivity.
Defined.



(** ** Persistence *)

Lemma load_after_save (P : Pickle) (b : AddressBook.t) (filename : string)
      (w : World) :
  pickle_round_trip P ->
  load_data filename (snd (save_data b filename w))
  = (Return b, snd (save_data b filename w)).
Proof.
  intros Hrt. unfold load_data, save_data, open_rb, mbind, get_files,
    set_files, lift, ret. simpl.
  rewrite dict_get_set_same. simpl. rewrite Hrt. reflexivity.
Qed.

Lemma main_body_close (P : Pickle) (w : World) :
  main_body "close" w
  = (Return Break,
     mkWorld (book w) (stdout w ++ ["Good bye!"])
             (Py.dict_set default_filename (pickle_dump (book w)) (files w))
             (today w)).
Proof. reflexivity. Qed.

(** C8. Saving a book and loading it again gives the book back, equal in
    its names, in the phones and in the birthday of every name; so does
    ending the loop with [close] and loading at the next start. The
    serialisation itself is the library's: it is taken to give back what
    was dumped. *)
Theorem save_load_round_trip
        (P : Pickle) (b : AddressBook.t) (filename : string) (w : World) :
  pickle_round_trip P ->
  fst (load_data filename (snd (save_data b filename w))) = Return b
  /\ fst (load_data default_filename (snd (main_body "close" w)))
     = Return (book w).
Proof.
  intros Hrt. split.
  - now rewrite load_after_save.
  - rewrite main_body_close.
    unfold load_data, open_rb, mbind, get_files, lift, ret. simpl.
    rewrite dict_get_set_same. simpl. rewrite Hrt. reflexivity.
Qed.

Lemma save_load_round_trip_witness :
  pickle_round_trip object_pickle
  /\ fst (load_data "book.pkl" (snd (save_data two_contacts "book.pkl" sample_world)))
     = Return two_contacts
  /\ fst (load_data default_filename (snd (main_body "close" sample_world)))
     = Return [("Ann", ann)].
Proof.
  assert (Hrt : pickle_round_trip object_pickle) by (intros b; reflexivity).
  split; [exact Hrt|].
  exact (save_load_round_trip object_pickle two_contacts "book.pkl"
                              sample_world Hrt).
Defined.

(** ** The calendar *)

(** A year adds its length to the days before it. *)
Lemma days_before_year_step y :
  Py.days_before_year (y + 1) = Py.days_before_year y + year_length y.
Proof.
  unfold Py.days_before_year, year_length, Py.is_leap.
  replace (y + 1 - 1) with y by lia.
  destruct (Z.eqb_spec (y mod 4) 0), (Z.eqb_spec (y mod 100) 0),
    (Z.eqb_spec (y mod 400) 0); simpl;
    Z.div_mod_to_equations; lia.
Qed.

(** Checked on each index of a year, for both kinds of year. *)
Lemma within_year_all (leapyear : bool) (n : Z) :
  0 <= n <= 364 -> within_year_ok leapyear n = true.
Proof.
  intros Hn.
  assert (H : forallb (fun k => within_year_ok true (Z.of_nat k)
                                && within_year_ok false (Z.of_nat k))
                      (seq 0 365) = true) by (vm_compute; reflexivity).
  rewrite forallb_forall in H.
  specialize (H (Z.to_nat n)). rewrite Z2Nat.id in H by lia.
  assert (Hin : In (Z.to_nat n) (seq 0 365)) by (apply in_seq; lia).
  apply H in Hin. apply andb_true_iff in Hin.
  destruct leapyear; tauto.
Qed.

(** The days before a year, counted by cycles of 400, 100, 4 and 1 years. *)
Lemma days_before_year_decomp a b c d :
  0 <= b <= 3 -> 0 <= c <= 24 -> 0 <= d <= 3 ->
  Py.days_before_year (400 * a + 100 * b + 4 * c + d + 1)
  = 146097 * a + 36524 * b + 1461 * c + 365 * d.
Proof.
  intros Hb Hc Hd. unfold Py.days_before_year.
  replace (400 * a + 100 * b + 4 * c + d + 1 - 1)
    with (400 * a + 100 * b + 4 * c + d) by lia.
  cbv zeta. Z.div_mod_to_equations. lia.
Qed.

(** The flag [leapyear] of [ord2ymd] is [is_leap] of the year it finds. *)
Lemma is_leap_decomp a b c d :
  0 <= b <= 3 -> 0 <= c <= 24 -> 0 <= d <= 3 ->
  Py.is_leap (400 * a + 100 * b + 4 * c + d + 1)
  = (d =? 3) && (negb (c =? 24) || (b =? 3)).
Proof.
  intros Hb Hc Hd. unfold Py.is_leap.
  destruct (Z.eqb_spec d 3), (Z.eqb_spec c 24), (Z.eqb_spec b 3);
    repeat match goal with
           | |- context [?x mod ?k =? 0] => destruct (Z.eqb_spec (x mod k) 0)
           end; simpl; try reflexivity; exfalso;
    Z.div_mod_to_equations; lia.
Qed.

(** [ord2ymd] with its quotients and remainders named. *)
Lemma ord2ymd_unfold n0 :
  Py.ord2ymd n0 =
  let n := n0 - 1 in
  let a := n / 146097 in
  let r := n mod 146097 in
  let b := r / 36524 in
  let r2 := r mod 36524 in
  let c := r2 / 1461 in
  let r3 := r2 mod 1461 in
  let d := r3 / 365 in
  let r4 := r3 mod 365 in
  let y := a * 400 + 1 + b * 100 + c * 4 + d in
  if (d =? 4) || (b =? 4) then Py.mkDate (y - 1) 12 31
  else
    let leapyear := (d =? 3) && (negb (c =? 24) || (b =? 3)) in
    Py.mkDate y (fst (within_year leapyear r4)) (snd (within_year leapyear r4)).
Proof.
  unfold Py.ord2ymd, within_year. cbv zeta.
  repeat match goal with
         | |- context [if ?t then _ else _] => destruct t
         end; reflexivity.
Qed.

Lemma valid_date_intro y m d :
  1 <= y <= 9999 -> 1 <= m <= 12 -> 1 <= d <= Py.days_in_month y m ->
  Py.valid_date (Py.mkDate y m d) = true.
Proof.
  intros Hy Hm Hd. unfold Py.valid_date, Py.MINYEAR, Py.MAXYEAR. simpl.
  repeat (apply andb_true_iff; split); apply Z.leb_le; lia.
Qed.

Lemma valid_date_elim dt :
  Py.valid_date dt = true ->
  1 <= Py.year dt <= 9999 /\ 1 <= Py.month dt <= 12
  /\ 1 <= Py.day dt <= Py.days_in_month (Py.year dt) (Py.month dt).
Proof.
  unfold Py.valid_date, Py.MINYEAR, Py.MAXYEAR. intros H.
  repeat (apply andb_true_iff in H; destruct H as [H ?]).
  repeat match goal with H : (_ <=? _) = true |- _ => apply Z.leb_le in H end.
  lia.
Qed.

(** [fromordinal] returns a date of the calendar, the one that has the
    ordinal it was given. *)
Lemma ord2ymd_spec n0 :
  1 <= n0 <= Py.MAXORDINAL ->
  Py.valid_date (Py.ord2ymd n0) = true /\ Py.ymd2ord (Py.ord2ymd n0) = n0.
Proof.
  unfold Py.MAXORDINAL. intros Hn0. rewrite ord2ymd_unfold. cbv zeta.
  set (n := n0 - 1).
  pose proof (Z.div_mod n 146097 ltac:(lia)) as E1.
  pose proof (Z.mod_pos_bound n 146097 ltac:(lia)) as B1.
  set (a := n / 146097) in *. set (r := n mod 146097) in *.
  pose proof (Z.div_mod r 36524 ltac:(lia)) as E2.
  pose proof (Z.mod_pos_bound r 36524 ltac:(lia)) as B2.
  set (b := r / 36524) in *. set (r2 := r mod 36524) in *.
  pose proof (Z.div_mod r2 1461 ltac:(lia)) as E3.
  pose proof (Z.mod_pos_bound r2 1461 ltac:(lia)) as B3.
  set (c := r2 / 1461) in *. set (r3 := r2 mod 1461) in *.
  pose proof (Z.div_mod r3 365 ltac:(lia)) as E4.
  pose proof (Z.mod_pos_bound r3 365 ltac:(lia)) as B4.
  set (d := r3 / 365) in *. set (r4 := r3 mod 365) in *.
  assert (Hn : n = n0 - 1) by reflexivity.
  clearbody n a r b r2 c r3 d r4.
  assert (Ha : 0 <= a <= 24) by lia.
  assert (Hb : 0 <= b <= 4) by lia.
  assert (Hc : 0 <= c <= 24) by lia.
  assert (Hd : 0 <= d <= 4) by lia.
  destruct (Z.eqb_spec d 4) as [Hd4|Hd4]; [|destruct (Z.eqb_spec b 4) as [Hb4|Hb4]];
    cbn [orb].
  - (* the last day of a four-year cycle *)
    assert (Hb3 : b <= 3) by lia.
    assert (Hc23 : c <= 23) by lia.
    replace (a * 400 + 1 + b * 100 + c * 4 + d - 1)
      with (400 * a + 100 * b + 4 * c + 3 + 1) by lia.
    pose proof (is_leap_decomp a b c 3 ltac:(lia) ltac:(lia) ltac:(lia)) as Hl.
    replace ((3 =? 3) && (negb (c =? 24) || (b =? 3))) with true in Hl
      by (destruct (Z.eqb_spec c 24); [lia|reflexivity]).
    pose proof (days_before_year_decomp a b c 3 ltac:(lia) ltac:(lia) ltac:(lia)) as Hy.
    split.
    + apply valid_date_intro; [lia | lia |].
      change (Py.days_in_month (400 * a + 100 * b + 4 * c + 3 + 1) 12) with 31. lia.
    + unfold Py.ymd2ord, Py.days_before_month. cbn [Py.year Py.month Py.day].
      rewrite Hl, Hy. change (Py.DAYS_BEFORE_MONTH 12) with 334.
      change (2 <? 12) with true. cbn [andb]. lia.
  - (* the last day of a four-hundred-year cycle *)
    assert (r2 = 0 /\ c = 0 /\ r3 = 0 /\ d = 0 /\ r4 = 0) as (-> & -> & -> & -> & ->)
      by lia.
    subst b.
    replace (a * 400 + 1 + 4 * 100 + 0 * 4 + 0 - 1)
      with (400 * a + 100 * 3 + 4 * 24 + 3 + 1) by lia.
    pose proof (is_leap_decomp a 3 24 3 ltac:(lia) ltac:(lia) ltac:(lia)) as Hl.
    change ((3 =? 3) && (negb (24 =? 24) || (3 =? 3))) with true in Hl.
    pose proof (days_before_year_decomp a 3 24 3 ltac:(lia) ltac:(lia) ltac:(lia)) as Hy.
    split.
    + apply valid_date_intro; [lia | lia |].
      change (Py.days_in_month (400 * a + 100 * 3 + 4 * 24 + 3 + 1) 12) with 31. lia.
    + unfold Py.ymd2ord, Py.days_before_month. cbn [Py.year Py.month Py.day].
      rewrite Hl, Hy. change (Py.DAYS_BEFORE_MONTH 12) with 334.
      change (2 <? 12) with true. cbn [andb]. lia.
  - (* any other day *)
    assert (Hb3 : b <= 3) by lia.
    assert (Hd3 : d <= 3) by lia.
    set (leapyear := (d =? 3) && (negb (c =? 24) || (b =? 3))).
    pose proof (within_year_all leapyear r4 ltac:(lia)) as Hw.
    unfold within_year_ok in Hw.
    destruct (within_year leapyear r4) as [m dd]. cbn [fst snd] in *.
    repeat (apply andb_true_iff in Hw; destruct Hw as [Hw ?]).
    repeat match goal with
           | H : (_ <=? _) = true |- _ => apply Z.leb_le in H
           | H : (_ =? _) = true |- _ => apply Z.eqb_eq in H
           end.
    replace (a * 400 + 1 + b * 100 + c * 4 + d)
      with (400 * a + 100 * b + 4 * c + d + 1) by lia.
    pose proof (is_leap_decomp a b c d ltac:(lia) ltac:(lia) ltac:(lia)) as Hl.
    fold leapyear in Hl.
    pose proof (days_before_year_decomp a b c d ltac:(lia) ltac:(lia) ltac:(lia)) as Hy.
    split.
    + apply valid_date_intro; [lia | lia |].
      unfold Py.days_in_month. rewrite Hl. lia.
    + unfold Py.ymd2ord, Py.days_before_month. cbn [Py.year Py.month Py.day].
      rewrite Hl, Hy. lia.
Qed.

(** Later years have more days before them. *)
Lemma days_before_year_mono y y' :
  y <= y' -> Py.days_before_year y <= Py.days_before_year y'.
Proof.
  intros H. unfold Py.days_before_year. cbv zeta.
  Z.div_mod_to_equations. lia.
Qed.

Lemma month_cases m :
  1 <= m <= 12 ->
  m = 1 \/ m = 2 \/ m = 3 \/ m = 4 \/ m = 5 \/ m = 6
  \/ m = 7 \/ m = 8 \/ m = 9 \/ m = 10 \/ m = 11 \/ m = 12.
Proof. lia. Qed.

Ltac each_month m H :=
  destruct (month_cases m H) as [?|[?|[?|[?|[?|[?|[?|[?|[?|[?|[?|?]]]]]]]]]]];
  subst m.

(** A date falls on one of the days of its year. *)
Lemma day_of_year_bounds y m d :
  1 <= m <= 12 -> 1 <= d <= Py.days_in_month y m ->
  1 <= Py.days_before_month y m + d <= year_length y.
Proof.
  intros Hm. unfold Py.days_in_month, Py.days_before_month, year_length.
  each_month m Hm; destruct (Py.is_leap y); cbn -[Z.add Z.le Z.lt]; lia.
Qed.

(** Within a year, an earlier month comes earlier. *)
Lemma day_of_year_lt y m d m' d' :
  1 <= m <= 12 -> 1 <= m' <= 12 ->
  1 <= d <= Py.days_in_month y m -> 1 <= d' <= Py.days_in_month y m' ->
  m < m' ->
  Py.days_before_month y m + d < Py.days_before_month y m' + d'.
Proof.
  intros Hm Hm'. unfold Py.days_in_month, Py.days_before_month.
  each_month m Hm; each_month m' Hm'; destruct (Py.is_leap y);
    cbn -[Z.add Z.le Z.lt]; lia.
Qed.

(** An earlier year comes earlier. *)
Lemma ymd2ord_lt_year a b :
  Py.valid_date a = true -> Py.valid_date b = true ->
  Py.year a < Py.year b -> Py.ymd2ord a < Py.ymd2ord b.
Proof.
  intros Ha Hb Hy.
  apply valid_date_elim in Ha as (_ & Hma & Hda).
  apply valid_date_elim in Hb as (_ & Hmb & Hdb).
  pose proof (day_of_year_bounds _ _ _ Hma Hda).
  pose proof (day_of_year_bounds _ _ _ Hmb Hdb).
  pose proof (days_before_year_step (Py.year a)).
  pose proof (days_before_year_mono (Py.year a + 1) (Py.year b) ltac:(lia)).
  unfold Py.ymd2ord. lia.
Qed.

(** The order of dates is the order of their ordinals. *)
Lemma date_le_ordinal a b :
  Py.valid_date a = true -> Py.valid_date b = true ->
  Py.date_le a b = (Py.ymd2ord a <=? Py.ymd2ord b).
Proof.
  intros Ha Hb. unfold Py.date_le.
  destruct (Z.ltb_spec (Py.year a) (Py.year b)) as [Hlt|Hge]; cbn [orb].
  - pose proof (ymd2ord_lt_year a b Ha Hb Hlt).
    symmetry. apply Z.leb_le. lia.
  - destruct (Z.eqb_spec (Py.year a) (Py.year b)) as [Heq|Hne]; cbn [andb].
    + pose proof (valid_date_elim _ Ha) as (_ & Hma & Hda).
      pose proof (valid_date_elim _ Hb) as (_ & Hmb & Hdb).
      unfold Py.ymd2ord. rewrite <- Heq in *.
      destruct (Z.ltb_spec (Py.month a) (Py.month b)) as [Hm|Hm]; cbn [orb].
      * pose proof (day_of_year_lt _ _ _ _ _ Hma Hmb Hda Hdb Hm).
        symmetry. apply Z.leb_le. lia.
      * destruct (Z.eqb_spec (Py.month a) (Py.month b)) as [Hme|Hmne];
          cbn [andb].
        -- rewrite <- Hme.
           destruct (Z.leb_spec (Py.day a) (Py.day b));
             symmetry; [apply Z.leb_le|apply Z.leb_gt]; lia.
        -- pose proof (day_of_year_lt _ _ _ _ _ Hmb Hma Hdb Hda ltac:(lia)).
           symmetry. apply Z.leb_gt. lia.
    + pose proof (ymd2ord_lt_year b a Hb Ha ltac:(lia)).
      symmetry. apply Z.leb_gt. lia.
Qed.

(** Adding days moves a date forward by that many days. *)
Lemma add_days_le today m n dm dn :
  Py.valid_date today = true ->
  Py.add_days today m = Return dm ->
  Py.add_days today n = Return dn ->
  Py.date_le dm dn = (m <=? n).
Proof.
  unfold Py.add_days. intros Hv Hm Hn.
  destruct ((0 <? Py.ymd2ord today + m) && (Py.ymd2ord today + m <=? Py.MAXORDINAL)) eqn:Em;
    [|discriminate].
  destruct ((0 <? Py.ymd2ord today + n) && (Py.ymd2ord today + n <=? Py.MAXORDINAL)) eqn:En;
    [|discriminate].
  injection Hm as <-. injection Hn as <-.
  apply andb_true_iff in Em as [Em1 Em2]. apply andb_true_iff in En as [En1 En2].
  apply Z.ltb_lt in Em1, En1. apply Z.leb_le in Em2, En2.
  destruct (ord2ymd_spec (Py.ymd2ord today + m) ltac:(lia)) as [Vm Om].
  destruct (ord2ymd_spec (Py.ymd2ord today + n) ltac:(lia)) as [Vn On].
  rewrite (date_le_ordinal _ _ Vm Vn), Om, On.
  destruct (Z.leb_spec m n); [apply Z.leb_le|apply Z.leb_gt]; lia.
Qed.

Lemma add_days_after today n dn :
  Py.valid_date today = true ->
  0 <= n ->
  Py.add_days today n = Return dn ->
  Py.date_le today dn = true.
Proof.
  unfold Py.add_days. intros Hv Hn0 Hn.
  destruct ((0 <? Py.ymd2ord today + n) && (Py.ymd2ord today + n <=? Py.MAXORDINAL)) eqn:En;
    [|discriminate].
  injection Hn as <-.
  apply andb_true_iff in En as [En1 En2].
  apply Z.ltb_lt in En1. apply Z.leb_le in En2.
  destruct (ord2ymd_spec (Py.ymd2ord today + n) ltac:(lia)) as [Vn On].
  rewrite (date_le_ordinal _ _ Hv Vn), On. apply Z.leb_le. lia.
Qed.

(** ** The upcoming birthdays *)

Lemma in_window_limit (today limit d : Py.date) :
  Py.add_days today 7 = Return limit ->
  AddressBook.in_window today d
  = Return (Py.date_le today d && Py.date_le d limit).
Proof.
  intros H. unfold AddressBook.in_window. rewrite H.
  destruct (Py.date_le today d); reflexivity.
Qed.

(** The query returns the items of the records whose stored dates lie in
    the window, in the order of the book. *)
Lemma upcoming_stored (today limit : Py.date) (records : list Record_.t) :
  Py.add_days today 7 = Return limit ->
  birthdays_parse records ->
  AddressBook.upcoming today records
  = Return (stored_upcoming today limit records).
Proof.
  intros Hlimit Hparse.
  induction Hparse as [|r rs Hr _ IH]; simpl; [reflexivity|].
  destruct (Record_.birthday r) as [b|] eqn:Hb; [|exact IH].
  specialize (Hr b eq_refl). unfold stored_in_window.
  destruct (Py.strptime_dmY (Field.value b)) as [d|e]; [|discriminate].
  simpl. rewrite (in_window_limit today limit d Hlimit), IH. simpl.
  destruct (Py.date_le today d && Py.date_le d limit); reflexivity.
Qed.

Lemma stored_upcoming_In (today limit : Py.date) (records : list Record_.t)
      (e : AddressBook.entry) :
  In e (stored_upcoming today limit records) <->
  exists (r : Record_.t) (b : Birthday.t),
    In r records /\ Record_.birthday r = Some b
    /\ stored_in_window today limit (Field.value b) = true
    /\ e = AddressBook.mkEntry (Field.value (Record_.name r)) (Field.value b).
Proof.
  induction records as [|r rs IH]; simpl.
  - split; [contradiction|]. intros (r & b & [] & _).
  - destruct (Record_.birthday r) as [b|] eqn:Hb.
    + destruct (stored_in_window today limit (Field.value b)) eqn:Hw; simpl;
        rewrite IH; split.
      * intros [<-|(r' & b' & Hin & H)].
        -- exists r, b. auto.
        -- exists r', b'. tauto.
      * intros (r' & b' & [<-|Hin] & Hb' & Hw' & ->).
        -- left. congruence.
        -- right. exists r', b'. auto.
      * intros (r' & b' & Hin & H). exists r', b'. tauto.
      * intros (r' & b' & [<-|Hin] & Hb' & Hw' & ->).
        -- congruence.
        -- exists r', b'. auto.
    + rewrite IH. split.
      * intros (r' & b' & Hin & H). exists r', b'. tauto.
      * intros (r' & b' & [<-|Hin] & Hb' & H); [congruence|].
        exists r', b'. auto.
Qed.

(** A date of the nineties is not upcoming in 2026, whatever its month and
    day: the query raises nothing and returns no item. *)
Lemma upcoming_ignores_old_years :
  AddressBook.get_upcoming_birthdays a_day [("Ann", ann_1990)] = Return [].
Proof. reflexivity. Qed.

(** A birthday that [Birthday] accepts and [strptime] refuses makes the
    query raise a [ValueError]. *)
Lemma upcoming_raises_on_short_year :
  returns (Birthday.init "1.1.20") = true
  /\ exists msg : string,
      AddressBook.get_upcoming_birthdays a_day
        [("Ann", Record_.mk (Field.mk "Ann") [] (Some (Field.mk "1.1.20")))]
      = raise ValueError msg.
Proof. split; [reflexivity|]. eexists. reflexivity. Qed.

(** What the specification expects for Ann, born 06.11.1990, on 03.11.2026:
    the date of this year with her month and day is three days ahead. *)
Lemma this_year_is_in_window :
  Py.add_days a_day 3 = Return (Py.mkDate 2026 11 6)
  /\ spec_this_year_in_window a_day "06.11.1990" = Return true.
Proof. split; reflexivity. Qed.

(** C4, counterexample. Ann's stored birthday is 06.11.1990 and today is
    03.11.2026: the date of this year with her month and day lies inside the
    window, and yet the list the query returns has no item for her. So the
    list does not hold her item exactly when that date lies in the window. *)
Lemma upcoming_not_this_year_counterexample :
  ~ (forall l : list AddressBook.entry,
        AddressBook.get_upcoming_birthdays a_day [("Ann", ann_1990)] = Return l ->
        (In (AddressBook.mkEntry "Ann" "06.11.1990") l
         <-> spec_this_year_in_window a_day "06.11.1990" = Return true)).
Proof.
  intros H.
  destruct (H [] upcoming_ignores_old_years) as [_ Hin].
  exact (Hin (proj2 this_year_is_in_window)).
Qed.

(** C4, as amended. When today's date plus seven days exists and every
    stored birthday reads as [%d.%m.%Y], the query returns a list in which a
    record with a birthday has its item exactly when the stored date itself,
    with the stored year, lies between today and today plus seven days, both
    included; a record whose stored date is today plus 3 days is in the list
    and one whose stored date is today plus 10 days is not. *)
Theorem upcoming_compares_stored_date
        (today limit : Py.date) (b : AddressBook.t) :
  Py.valid_date today = true ->
  Py.add_days today 7 = Return limit ->
  birthdays_parse (Py.dict_values b) ->
  exists l : list AddressBook.entry,
    AddressBook.get_upcoming_birthdays today b = Return l
    /\ forall (r : Record_.t) (bd : Birthday.t) (d : Py.date),
        In r (Py.dict_values b) ->
        Record_.birthday r = Some bd ->
        Py.strptime_dmY (Field.value bd) = Return d ->
        (In (AddressBook.mkEntry (Field.value (Record_.name r)) (Field.value bd)) l
         <-> Py.date_le today d = true /\ Py.date_le d limit = true)
        /\ (Py.add_days today 3 = Return d ->
            In (AddressBook.mkEntry (Field.value (Record_.name r))
                                    (Field.value bd)) l)
        /\ (Py.add_days today 10 = Return d ->
            ~ In (AddressBook.mkEntry (Field.value (Record_.name r))
                                      (Field.value bd)) l).
Proof.
  intros Hvalid Hlimit Hparse.
  exists (stored_upcoming today limit (Py.dict_values b)).
  split; [now apply upcoming_stored|].
  intros r bd d Hin Hbd Hd.
  assert (Hiff :
    In (AddressBook.mkEntry (Field.value (Record_.name r)) (Field.value bd))
       (stored_upcoming today limit (Py.dict_values b))
    <-> Py.date_le today d = true /\ Py.date_le d limit = true).
  { rewrite stored_upcoming_In. split.
    - intros (r' & b' & _ & _ & Hw & E). injection E as _ Ev.
      unfold stored_in_window in Hw. rewrite <- Ev, Hd in Hw.
      now apply andb_true_iff in Hw.
    - intros Hw. exists r, bd. repeat split; auto.
      unfold stored_in_window. rewrite Hd. now apply andb_true_iff. }
  split; [exact Hiff|]. split; intros Hadd.
  - apply Hiff. split.
    + now apply (add_days_after today 3 d).
    + now rewrite (add_days_le today 3 7 d limit).
  - intros Hl. apply Hiff in Hl as [_ Hl].
    rewrite (add_days_le today 10 7 d limit) in Hl by assumption.
    discriminate.
Qed.

Lemma upcoming_compares_stored_date_witness :
  exists l : list AddressBook.entry,
    AddressBook.get_upcoming_birthdays a_day soon_and_later = Return l
    /\ In (AddressBook.mkEntry "Cy" "06.11.2026") l
    /\ ~ In (AddressBook.mkEntry "Di" "13.11.2026") l.
Proof.
  destruct (upcoming_compares_stored_date
              a_day (Py.mkDate 2026 11 10) soon_and_later)
    as (l & Hl & H).
  - reflexivity.
  - reflexivity.
  - repeat constructor; intros ? [= <-]; reflexivity.
  - exists l. split; [exact Hl|]. split.
    + apply (H cy_soon (Field.mk "06.11.2026") (Py.mkDate 2026 11 6));
        [simpl; tauto | reflexivity | reflexivity | reflexivity].
    + apply (H di_later (Field.mk "13.11.2026") (Py.mkDate 2026 11 13));
        [simpl; tauto | reflexivity | reflexivity | reflexivity].
Defined.

(** * Further properties of the code *)

(** ** Record: looking phones up and removing them *)

Lemma pyval_eqb_neq (a b : pyval) : pyval_eqb a b = false <-> a <> b.
Proof.
  rewrite <- pyval_eqb_eq. destruct (pyval_eqb a b); split; congruence.
Qed.

(** [find_phone] returns nothing exactly when no phone has the value, and
    otherwise the first phone of the list that has it. *)
Theorem find_phone_first (self : Record_.t) (phone : pyval) :
  (Record_.find_phone self phone = None
   <-> Forall (fun p => Field.value p <> phone) (Record_.phones self))
  /\ (forall p : Phone.t,
         Record_.find_phone self phone = Some p ->
         Field.value p = phone
         /\ exists before after_ : list Phone.t,
             Record_.phones self = (before ++ p :: after_)%list
             /\ Forall (fun q => Field.value q <> phone) before).
Proof.
  unfold Record_.find_phone. destruct self as [n ps bd]. simpl.
  induction ps as [|q ps [IH1 IH2]]; simpl.
  - split; [split; [constructor|reflexivity]|discriminate].
  - destruct (pyval_eqb (Field.value q) phone) eqn:E.
    + apply pyval_eqb_eq in E. split.
      * split; [discriminate|]. intros H. inversion H; contradiction.
      * intros p [= <-]. split; [exact E|].
        exists [], ps. split; [reflexivity|constructor].
    + apply pyval_eqb_neq in E. split.
      * rewrite IH1. split; intros H.
        -- now constructor.
        -- now inversion H.
      * intros p Hp. destruct (IH2 p Hp) as (Hv & before & after_ & -> & Hb).
        split; [exact Hv|]. exists (q :: before), after_.
        split; [reflexivity|now constructor].
Qed.

Lemma find_phone_first_witness :
  Record_.find_phone ann (PStr "1234567890") = Some (Field.mk (PStr "1234567890"))
  /\ Field.value (A := pyval) (Field.mk (PStr "1234567890")) = PStr "1234567890".
Proof.
  split; [reflexivity|].
  exact (proj1 (proj2 (find_phone_first ann (PStr "1234567890"))
                      (Field.mk (PStr "1234567890")) eq_refl)).
Defined.

(** Filtering keeps a list that has nothing to drop. *)
Lemma filter_all {A : Type} (f : A -> bool) (l : list A) :
  Forall (fun x => f x = true) l -> filter f l = l.
Proof.
  induction 1 as [|x l Hx _ IH]; simpl; [reflexivity|].
  now rewrite Hx, IH.
Qed.

(** [remove_phone] keeps exactly the phones whose value differs from the
    argument, each as often as it occurred and in the order they had, with
    the name and the birthday; after it no phone has the value and the value
    is not found; when no phone had the value the record is left as it is,
    and nothing is raised. *)
Theorem remove_phone_removes_all (self : Record_.t) (phone : pyval) :
  Record_.phones (Record_.remove_phone self phone)
  = filter (fun p => negb (pyval_eqb (Field.value p) phone))
           (Record_.phones self)
  /\ (forall before after_ : list Phone.t,
         Record_.phones self = (before ++ after_)%list ->
         Record_.phones (Record_.remove_phone self phone)
         = (Record_.phones
              (Record_.remove_phone
                 (Record_.mk (Record_.name self) before (Record_.birthday self))
                 phone)
            ++ Record_.phones
                 (Record_.remove_phone
                    (Record_.mk (Record_.name self) after_ (Record_.birthday self))
                    phone))%list)
  /\ Forall (fun p => Field.value p <> phone)
            (Record_.phones (Record_.remove_phone self phone))
  /\ Record_.find_phone (Record_.remove_phone self phone) phone = None
  /\ Record_.name (Record_.remove_phone self phone) = Record_.name self
  /\ Record_.birthday (Record_.remove_phone self phone) = Record_.birthday self
  /\ (Record_.find_phone self phone = None ->
      Record_.remove_phone self phone = self).
Proof.
  destruct self as [n ps bd].
  unfold Record_.remove_phone, Record_.find_phone. simpl.
  split; [reflexivity|].
  split; [intros before after_ ->; apply filter_app|].
  split.
  { apply Forall_forall. intros q Hq. apply filter_In in Hq as [_ Hq].
    apply negb_true_iff in Hq. now apply pyval_eqb_neq. }
  split.
  { induction ps as [|q ps IH]; simpl; [reflexivity|].
    destruct (pyval_eqb (Field.value q) phone) eqn:E; simpl; [exact IH|].
    now rewrite E. }
  split; [reflexivity|]. split; [reflexivity|].
  intros Hnone. f_equal. apply filter_all.
  apply Forall_forall. intros q Hq.
  pose proof (find_none _ _ Hnone q Hq) as H. simpl in H. now rewrite H.
Qed.

Lemma remove_phone_removes_all_witness :
  Record_.phones (Record_.remove_phone eve (PStr "2"))
  = [Field.mk (PStr "1"); Field.mk (PStr "3")]
  /\ Record_.remove_phone ann (PStr "5550100") = ann.
Proof.
  split.
  - exact (proj1 (remove_phone_removes_all eve (PStr "2"))).
  - apply (proj2 (proj2 (proj2 (proj2 (proj2 (proj2
             (remove_phone_removes_all ann (PStr "5550100")))))))).
    reflexivity.
Defined.

(** A phone [add_phone] has accepted is found afterwards, with the value it
    was added with. *)
Theorem add_phone_then_find (self self' : Record_.t) (p : string) :
  Record_.add_phone self (PStr p) = Return self' ->
  exists found : Phone.t,
    Record_.find_phone self' (PStr p) = Some found
    /\ Field.value found = PStr p
    /\ length (Record_.phones self') = S (length (Record_.phones self)).
Proof.
  unfold Record_.add_phone. rewrite Phone_init_str.
  destruct (Py.all_chars Py.isdigit_char p); [|discriminate].
  intros [= <-]. unfold Record_.find_phone. cbn [Record_.phones].
  match goal with
  | |- context [find ?f ?l] => destruct (find f l) as [q|] eqn:E
  end.
  - exists q. split; [reflexivity|]. split.
    + apply find_some in E as [_ E]. now apply pyval_eqb_eq.
    + rewrite length_app. simpl. lia.
  - exfalso.
    pose proof (find_none _ _ E (Field.mk (PStr p)) (in_elt _ _ _)) as H.
    simpl in H. rewrite String.eqb_refl in H. discriminate.
Qed.

Lemma add_phone_then_find_witness :
  exists found : Phone.t,
    Record_.find_phone
      (Record_.mk (Field.mk "Ann")
                  [Field.mk (PStr "1234567890"); Field.mk (PStr "77")] None)
      (PStr "77") = Some found
    /\ Field.value found = PStr "77"
    /\ length [Field.mk (PStr "1234567890"); Field.mk (PStr "77")]
       = S (length (Record_.phones ann)).
Proof.
  exact (add_phone_then_find ann _ "77" eq_refl).
Defined.

(** [edit_phone] keeps the number of phones, the name and the birthday; when
    a phone has the old value the new value is found afterwards, and when
    none has it the record is left as it is. *)
Theorem edit_phone_keeps_shape (self : Record_.t) (old new : pyval) :
  length (Record_.phones (Record_.edit_phone self old new))
  = length (Record_.phones self)
  /\ Record_.name (Record_.edit_phone self old new) = Record_.name self
  /\ Record_.birthday (Record_.edit_phone self old new) = Record_.birthday self
  /\ (Record_.find_phone self old <> None ->
      Record_.find_phone (Record_.edit_phone self old new) new <> None)
  /\ (Record_.find_phone self old = None ->
      Record_.edit_phone self old new = self).
Proof.
  destruct self as [n ps bd].
  unfold Record_.edit_phone, Record_.find_phone. simpl.
  split; [|split; [reflexivity|split; [reflexivity|split]]].
  - induction ps as [|q ps IH]; simpl; [reflexivity|].
    destruct (pyval_eqb (Field.value q) old); simpl; [reflexivity|].
    now rewrite IH.
  - induction ps as [|q ps IH]; simpl; [congruence|].
    destruct (pyval_eqb (Field.value q) old) eqn:E; simpl.
    + intros _. rewrite pyval_eqb_refl. discriminate.
    + intros H. destruct (pyval_eqb (Field.value q) new); [discriminate|].
      exact (IH H).
  - intros Hnone. f_equal.
    induction ps as [|q ps IH]; simpl in *; [reflexivity|].
    destruct (pyval_eqb (Field.value q) old); [discriminate|].
    now rewrite IH.
Qed.

Lemma edit_phone_keeps_shape_witness :
  Record_.find_phone (Record_.edit_phone ann (PStr "1234567890") (PStr "42"))
                     (PStr "42") <> None
  /\ Record_.edit_phone ann (PStr "000") (PStr "42") = ann.
Proof.
  split.
  - apply (proj1 (proj2 (proj2 (proj2
             (edit_phone_keeps_shape ann (PStr "1234567890") (PStr "42")))))).
    discriminate.
  - apply (proj2 (proj2 (proj2 (proj2
             (edit_phone_keeps_shape ann (PStr "000") (PStr "42")))))).
    reflexivity.
Defined.

(** ** Record: printing *)

Lemma join_items_strs (i : nat) (ps : list Phone.t) (items : list string) :
  map Field.value ps = map PStr items ->
  Record_.join_items i ps = Return items.
Proof.
  revert i items. induction ps as [|p ps IH]; intros i [|s items] H;
    try discriminate; [reflexivity|].
  simpl in *. injection H as Hp Hps. rewrite Hp, (IH (S i) items Hps).
  reflexivity.
Qed.

Lemma join_items_list (i : nat) (ps : list Phone.t) :
  Exists (fun p => exists l, Field.value p = PList l) ps ->
  exists msg : string, Record_.join_items i ps = raise TypeError msg.
Proof.
  intros H. revert i. induction H as [p ps [l Hl]|p ps _ IH]; intros i; simpl.
  - rewrite Hl. eexists; reflexivity.
  - destruct (Field.value p) as [s|l]; [|eexists; reflexivity].
    destruct (IH (S i)) as [msg ->]. eexists; reflexivity.
Qed.

(** [str(record)] is the name and the phone values joined by a semicolon
    and a space when every phone value is a [str]; a phone whose value is a
    list makes it raise [TypeError]. *)
Theorem Record_str_joins_phones (self : Record_.t) :
  (forall items : list string,
      map Field.value (Record_.phones self) = map PStr items ->
      Record_.str self
      = Return ("Contact name: " ++ Field.value (Record_.name self)
                ++ ", phones: " ++ Py.join "; " items))
  /\ (Exists (fun p => exists l, Field.value p = PList l) (Record_.phones self) ->
      exists msg : string, Record_.str self = raise TypeError msg).
Proof.
  unfold Record_.str. split.
  - intros items H. now rewrite (join_items_strs 0 _ items H).
  - intros H. destruct (join_items_list 0 _ H) as [msg ->].
    now exists msg.
Qed.

Lemma Record_str_joins_phones_witness :
  Record_.str (Record_.mk (Field.mk "Ann")
                 [Field.mk (PStr "1234567890"); Field.mk (PStr "77")] None)
  = Return "Contact name: Ann, phones: 1234567890; 77"
  /\ exists msg : string,
      Record_.str (Record_.mk (Field.mk "Ann") [Field.mk (PList ["1"; "2"])] None)
      = raise TypeError msg.
Proof.
  split.
  - apply (proj1 (Record_str_joins_phones
                    (Record_.mk (Field.mk "Ann")
                       [Field.mk (PStr "1234567890"); Field.mk (PStr "77")] None))
                 ["1234567890"; "77"]).
    reflexivity.
  - apply (proj2 (Record_str_joins_phones
                    (Record_.mk (Field.mk "Ann") [Field.mk (PList ["1"; "2"])] None))).
    constructor. now exists ["1"; "2"].
Defined.

(** ** AddressBook: adding, finding and deleting *)

Section DictDelete.
Context {V : Type}.
Implicit Types (d : Py.dict V) (k : string).

Lemma dict_get_absent d k :
  ~ In k (Py.dict_keys d) -> Py.dict_get k d = None.
Proof.
  intros H. destruct (Py.dict_get k d) eqn:E; [|reflexivity].
  exfalso. apply H. apply dict_contains_keys.
  unfold Py.dict_contains. now rewrite E.
Qed.

Lemma dict_get_del_same d k :
  NoDup (Py.dict_keys d) -> Py.dict_get k (Py.dict_del k d) = None.
Proof.
  induction d as [|[k' v'] d IH]; simpl; [reflexivity|].
  intros H. inversion H as [|? ? Hnotin Hnd]; subst.
  destruct (String.eqb k k') eqn:E; simpl.
  - apply String.eqb_eq in E. subst k'. now apply dict_get_absent.
  - rewrite E. now apply IH.
Qed.

Lemma dict_get_del_other d k k' :
  k' <> k -> Py.dict_get k' (Py.dict_del k d) = Py.dict_get k' d.
Proof.
  intros Hne. induction d as [|[k0 v0] d IH]; simpl; [reflexivity|].
  destruct (String.eqb k k0) eqn:E; simpl.
  - apply String.eqb_eq in E. subst k0.
    destruct (String.eqb k' k) eqn:E'; [|reflexivity].
    apply String.eqb_eq in E'. contradiction.
  - now rewrite IH.
Qed.

End DictDelete.

(** With distinct keys, [delete(name)] always returns; afterwards [name] is
    not found, every other name is found as before, the keys are still
    distinct, and a name that was absent leaves the book as it was. *)
Theorem delete_then_find (b : AddressBook.t) (name : string) :
  NoDup (Py.dict_keys b) ->
  exists b' : AddressBook.t,
    AddressBook.delete (PStr name) b = Return b'
    /\ AddressBook.find (PStr name) b' = Return None
    /\ (forall other : string,
           other <> name ->
           AddressBook.find (PStr other) b' = AddressBook.find (PStr other) b)
    /\ NoDup (Py.dict_keys b')
    /\ (AddressBook.find (PStr name) b = Return None -> b' = b).
Proof.
  intros Hnd. unfold AddressBook.delete, AddressBook.find. simpl.
  unfold Py.dict_contains.
  destruct (Py.dict_get name b) as [r|] eqn:E; eexists;
    (split; [reflexivity|]).
  - split; [now rewrite dict_get_del_same|].
    split; [intros other Hne; now rewrite dict_get_del_other|].
    split; [now apply dict_del_NoDup|discriminate].
  - split; [now rewrite E|]. repeat split; auto.
Qed.

Lemma delete_then_find_witness :
  exists b' : AddressBook.t,
    AddressBook.delete (PStr "Ann") two_contacts = Return b'
    /\ AddressBook.find (PStr "Ann") b' = Return None
    /\ AddressBook.find (PStr "Bob") b' = Return (Some bob).
Proof.
  destruct (delete_then_find two_contacts "Ann") as (b' & H1 & H2 & H3 & _).
  - repeat constructor; simpl; intuition discriminate.
  - exists b'. split; [exact H1|]. split; [exact H2|].
    rewrite (H3 "Bob"); [reflexivity|discriminate].
Defined.

(** [add_record] with an empty name raises [ValueError] with the message
    [Name cannot be empty]; with any other name it returns, every other name
    is found as before, and a name that was absent becomes the last key. *)
Theorem add_record_other_names (b : AddressBook.t) (name phone : string) :
  (name = EmptyString ->
   AddressBook.add_record name phone b = raise ValueError "Name cannot be empty")
  /\ (name <> EmptyString ->
      exists b' : AddressBook.t,
        AddressBook.add_record name phone b = Return b'
        /\ (forall other : string,
               other <> name ->
               AddressBook.find (PStr other) b' = AddressBook.find (PStr other) b)
        /\ (Py.dict_contains name b = false ->
            Py.dict_keys b' = (Py.dict_keys b ++ [name])%list)).
Proof.
  split.
  - intros ->. reflexivity.
  - intros Hne. rewrite (add_record_nonempty name phone b Hne).
    eexists. split; [reflexivity|]. split.
    + intros other Ho. unfold AddressBook.find. simpl.
      now rewrite dict_get_set_other.
    + apply dict_keys_set_absent.
Qed.

Lemma add_record_other_names_witness :
  AddressBook.add_record EmptyString "1" two_contacts
  = raise ValueError "Name cannot be empty"
  /\ exists b' : AddressBook.t,
      AddressBook.add_record "Cy" "1" two_contacts = Return b'
      /\ AddressBook.find (PStr "Bob") b' = Return (Some bob)
      /\ Py.dict_keys b' = ["Ann"; "Bob"; "Cy"].
Proof.
  destruct (add_record_other_names two_contacts EmptyString "1") as [H _].
  split; [exact (H eq_refl)|].
  destruct (add_record_other_names two_contacts "Cy" "1") as [_ H'].
  destruct H' as (b' & H1 & H2 & H3); [discriminate|].
  exists b'. split; [exact H1|]. split.
  - rewrite (H2 "Bob"); [reflexivity|discriminate].
  - exact (H3 eq_refl).
Defined.

(** ** parse_input *)

Lemma all_chars_app (p : ascii -> bool) (a b : string) :
  Py.all_chars p (a ++ b) = Py.all_chars p a && Py.all_chars p b.
Proof.
  induction a as [|c a IH]; simpl; [reflexivity|].
  now rewrite IH, andb_assoc.
Qed.

Lemma all_chars_rev_str (p : ascii -> bool) (s acc : string) :
  Py.all_chars p (Py.rev_str s acc) = Py.all_chars p s && Py.all_chars p acc.
Proof.
  revert acc. induction s as [|c s IH]; intros acc; simpl; [reflexivity|].
  rewrite IH. simpl. rewrite !andb_assoc. f_equal. apply andb_comm.
Qed.

Lemma rev_str_rev_str (s a b : string) :
  Py.rev_str (Py.rev_str s a) b = Py.rev_str a (s ++ b).
Proof.
  revert a b. induction s as [|c s IH]; intros a b; simpl; [reflexivity|].
  now rewrite IH.
Qed.

Lemma lstrip_no_space (t : string) :
  Py.all_chars (fun c => negb (Py.isspace_char c)) t = true -> Py.lstrip t = t.
Proof.
  destruct t as [|c t]; simpl; [reflexivity|].
  destruct (Py.isspace_char c); [discriminate|reflexivity].
Qed.

Lemma append_empty (s : string) : s ++ EmptyString = s.
Proof. induction s as [|c s IH]; simpl; [reflexivity|now rewrite IH]. Qed.

(** [strip] leaves a string without white space as it is. *)
Lemma strip_no_space (t : string) :
  Py.all_chars (fun c => negb (Py.isspace_char c)) t = true -> Py.strip t = t.
Proof.
  intros H. unfold Py.strip, Py.rstrip.
  rewrite (lstrip_no_space t H), lstrip_no_space.
  - rewrite rev_str_rev_str. simpl. apply append_empty.
  - rewrite all_chars_rev_str, H. reflexivity.
Qed.

(** The tokens of [split] are not empty and hold no white space. *)
Lemma split_ws_tokens (s tok : string) :
  Py.all_chars (fun c => negb (Py.isspace_char c)) tok = true ->
  Forall (fun t => t <> EmptyString
                   /\ Py.all_chars (fun c => negb (Py.isspace_char c)) t = true)
         (Py.split_ws s tok).
Proof.
  revert tok. induction s as [|c s IH]; intros tok Htok; simpl.
  - destruct tok; simpl; constructor; [|constructor].
    split; [discriminate|exact Htok].
  - destruct (Py.isspace_char c) eqn:Ec.
    + destruct tok as [|c' tok']; simpl; [now apply IH|].
      constructor; [split; [discriminate|exact Htok]|now apply IH].
    + apply IH. rewrite all_chars_app, Htok. simpl. now rewrite Ec.
Qed.

Lemma split_ws_nil (s tok : string) :
  Py.split_ws s tok = [] <->
  tok = EmptyString /\ Py.all_chars Py.isspace_char s = true.
Proof.
  revert tok. induction s as [|c s IH]; intros tok; simpl.
  - destruct tok; simpl; split; try tauto; try discriminate.
    intros [H _]. discriminate.
  - destruct (Py.isspace_char c) eqn:Ec; simpl.
    + destruct tok as [|c' tok']; simpl.
      * rewrite IH. tauto.
      * split; [discriminate|]. intros [H _]. discriminate.
    + rewrite IH. split; [|intros [_ H]; discriminate].
      intros [H _]. destruct tok; discriminate.
Qed.

(** [parse_input] raises [ValueError] exactly on a line of white space
    only, the empty line included; on any other line it returns the first
    token in lower case and the other tokens, and no token is empty or holds
    white space. *)
Theorem parse_input_tokens (user_input : string) :
  (Py.all_chars Py.isspace_char user_input = true ->
   parse_input user_input
   = raise ValueError "not enough values to unpack (expected at least 1, got 0)")
  /\ (Py.all_chars Py.isspace_char user_input = false ->
      exists (cmd : string) (args : list string),
        Py.split user_input = cmd :: args
        /\ parse_input user_input = Return (Py.lower cmd, args)
        /\ Forall (fun t => t <> EmptyString
                            /\ Py.all_chars (fun c => negb (Py.isspace_char c)) t
                               = true)
                  (cmd :: args)).
Proof.
  unfold parse_input, Py.split. split; intros H.
  - assert (E : Py.split_ws user_input EmptyString = [])
      by (apply split_ws_nil; now split).
    now rewrite E.
  - pose proof (split_ws_tokens user_input EmptyString eq_refl) as Htok.
    destruct (Py.split_ws user_input EmptyString) as [|cmd args] eqn:E.
    + apply split_ws_nil in E as [_ E]. congruence.
    + exists cmd, args. split; [reflexivity|]. split; [|exact Htok].
      inversion Htok as [|? ? [_ Hc] _]; subst.
      now rewrite (strip_no_space cmd Hc).
Qed.

Lemma parse_input_tokens_witness :
  parse_input "   "
  = raise ValueError "not enough values to unpack (expected at least 1, got 0)"
  /\ exists (cmd : string) (args : list string),
      Py.split "  ADD  Ann 123 " = cmd :: args
      /\ parse_input "  ADD  Ann 123 " = Return (Py.lower cmd, args).
Proof.
  split.
  - apply (proj1 (parse_input_tokens "   ")). reflexivity.
  - destruct (proj2 (parse_input_tokens "  ADD  Ann 123 ") eq_refl)
      as (cmd & args & H1 & H2 & _).
    exists cmd, args. now split.
Defined.

(** ** The handlers of the birthday commands *)

Section Handlers.
Context {P : Pickle}.
Implicit Types (w : World) (args : list string).

Lemma find_record_str (name : string) w :
  find_record (PStr name) w
  = (Return (match Py.dict_get name (book w) with
             | Some record => Some (name, record)
             | None => None
             end), w).
Proof.
  unfold find_record, mbind, get_book, lift, AddressBook.find, ret. simpl.
  destruct (Py.dict_get name (book w)); reflexivity.
Qed.

Lemma add_birthday_func_unfold (name birthday : string) w :
  add_birthday_func [name; birthday] w
  = match Py.dict_get name (book w) with
    | None => (Return (RStr "Contact not found."), w)
    | Some record =>
        match Record_.add_birthday record birthday with
        | Return record' =>
            (Return (RStr "Birthday added."),
             with_book w (Py.dict_set name record' (book w)))
        | Raise e => (Raise e, w)
        end
    end.
Proof.
  unfold add_birthday_func, mbind at 1. rewrite find_record_str.
  destruct (Py.dict_get name (book w)) as [record|]; [|reflexivity].
  unfold mbind, lift, store_record, get_book, set_book, ret, with_book.
  destruct (Record_.add_birthday record birthday); reflexivity.
Qed.

End Handlers.

(** The [add-birthday] handler answers [Contact not found.] for a name that
    is not in the book and [ValueError: Birthday already exists] for a record
    that has a birthday, both without changing anything; for a record
    without a birthday and a date [Birthday] accepts it answers
    [Birthday added.] and the book holds the record with that birthday, under
    the same key and in the same place. *)
Theorem add_birthday_handler_outcomes
        (P : Pickle) (name birthday : string) (w : World) :
  (Py.dict_get name (book w) = None ->
   add_birthday [name; birthday] w = (Return (RStr "Contact not found."), w))
  /\ (forall r : Record_.t,
         Py.dict_get name (book w) = Some r ->
         Record_.birthday r <> None ->
         add_birthday [name; birthday] w
         = (Return (RStr "ValueError: Birthday already exists"), w))
  /\ (forall r : Record_.t,
         Py.dict_get name (book w) = Some r ->
         Record_.birthday r = None ->
         returns (Birthday.init birthday) = true ->
         add_birthday [name; birthday] w
         = (Return (RStr "Birthday added."),
            with_book w
              (Py.dict_set name
                 (Record_.mk (Record_.name r) (Record_.phones r)
                             (Some (Field.mk birthday)))
                 (book w)))
         /\ Py.dict_keys
              (Py.dict_set name
                 (Record_.mk (Record_.name r) (Record_.phones r)
                             (Some (Field.mk birthday)))
                 (book w))
            = Py.dict_keys (book w)).
Proof.
  unfold add_birthday, input_error. rewrite add_birthday_func_unfold.
  split; [|split].
  - intros ->. reflexivity.
  - intros r -> Hb. unfold Record_.add_birthday.
    destruct (Record_.birthday r); [reflexivity|congruence].
  - intros r Hr Hb Hok. rewrite Hr. unfold Record_.add_birthday.
    rewrite Hb, (Birthday_init_value birthday Hok). split; [reflexivity|].
    apply dict_keys_set_present. unfold Py.dict_contains. now rewrite Hr.
Qed.

Lemma add_birthday_handler_outcomes_witness :
  add_birthday [ "Bob"; "06.11.1990" ] sample_world
  = (Return (RStr "Contact not found."), sample_world)
  /\ add_birthday [ "Ann"; "06.11.1990" ] sample_world
     = (Return (RStr "Birthday added."),
        with_book sample_world
          [("Ann", Record_.mk (Field.mk "Ann") [Field.mk (PStr "1234567890")]
                              (Some (Field.mk "06.11.1990")))]).
Proof.
  destruct (add_birthday_handler_outcomes object_pickle "Bob" "06.11.1990"
              sample_world) as (H & _ & _).
  destruct (add_birthday_handler_outcomes object_pickle "Ann" "06.11.1990"
              sample_world) as (_ & _ & H').
  split; [exact (H eq_refl)|].
  exact (proj1 (H' ann eq_refl eq_refl eq_refl)).
Defined.

(** ** What a turn of the loop does to the world *)

Section Turn.
Context {P : Pickle}.
Implicit Types (w : World) (args : list string).

Lemma print_birthdays_prints (l : list AddressBook.entry) w :
  exists w' : World,
    print_birthdays l w = (Return tt, w')
    /\ book w' = book w /\ files w' = files w /\ today w' = today w.
Proof.
  revert w. induction l as [|b l IH]; intros w; simpl.
  - exists w. now repeat split.
  - unfold mbind, print. simpl.
    match goal with |- context [print_birthdays l ?w0] =>
      destruct (IH w0) as (w' & -> & Hb & Hf & Ht) end.
    exists w'. now repeat split.
Qed.

(** The [birthdays] handler only prints. *)
Lemma birthdays_only_prints args w :
  exists (v : retval) (w' : World),
    birthdays args w = (Return v, w')
    /\ book w' = book w /\ files w' = files w /\ today w' = today w.
Proof.
  unfold birthdays, input_error, birthdays_func, mbind, get_book, get_today,
    lift, ret. simpl.
  destruct (AddressBook.get_upcoming_birthdays (today w) (book w)) as [l|e].
  - destruct l as [|b l].
    + eexists _, _. split; [reflexivity|]. now repeat split.
    + destruct (print_birthdays_prints (b :: l) w) as (w' & -> & H).
      eexists _, _. split; [reflexivity|exact H].
  - eexists _, _. split; [reflexivity|]. now repeat split.
Qed.

(** The [add-birthday] handler touches the book only. *)
Lemma add_birthday_keeps_files args w :
  exists (v : retval) (w' : World),
    add_birthday args w = (Return v, w')
    /\ stdout w' = stdout w /\ files w' = files w /\ today w' = today w.
Proof.
  unfold add_birthday, input_error.
  destruct args as [|name [|birthday [|x args]]];
    try (eexists _, _; split; [reflexivity|now repeat split]).
  rewrite add_birthday_func_unfold.
  destruct (Py.dict_get name (book w)) as [r|];
    [destruct (Record_.add_birthday r birthday)|];
    eexists _, _; (split; [reflexivity|now repeat split]).
Qed.

(** [show_birthday] looks the argument list up and so never reaches the
    book. *)
Lemma show_birthday_always_fails args w :
  show_birthday args w
  = (Return (RStr "An error occurred: unhashable type: 'list'"), w).
Proof. reflexivity. Qed.

End Turn.

Ltac close_turn :=
  simpl; repeat split; intros;
  try reflexivity; try discriminate; try congruence;
  try (exfalso;
       match goal with H : ~ _ |- _ => apply H; simpl; tauto end);
  try solve [simpl in *; intuition (discriminate || congruence)].

Ltac finish_turn := intros Hrun; injection Hrun as <- <-; close_turn.

Section TurnEffects.
Context {P : Pickle}.
Implicit Types (w : World) (args : list string).

(** What one turn may change: never the date; the files only on [close]
    and [exit], which alone end the loop; the book only on [add] and
    [add-birthday]. *)
Lemma main_body_store (user_input cmd : string) args w (r : result control)
      (w' : World) :
  parse_input user_input = Return (cmd, args) ->
  main_body user_input w = (r, w') ->
  today w' = today w
  /\ (In cmd ["close"; "exit"] -> r = Return Break /\ w' = closed w)
  /\ (~ In cmd ["close"; "exit"] -> r <> Return Break /\ files w' = files w)
  /\ (~ In cmd ["add"; "add-birthday"] -> book w' = book w).
Proof.
  intros Hp. unfold main_body, mbind at 1, lift. rewrite Hp.
  cbn [fst snd existsb orb].
  destruct (String.eqb_spec cmd "close") as [->|N1]; [finish_turn|].
  destruct (String.eqb_spec cmd "exit") as [->|N2]; [finish_turn|].
  cbn [orb].
  destruct (String.eqb_spec cmd "hello") as [->|N3]; [finish_turn|].
  destruct (String.eqb_spec cmd "add") as [->|N4].
  { destruct args as [|name [|phone [|x args]]]; try finish_turn.
    unfold mbind, get_book, lift, set_book, say, print, ret. simpl.
    destruct (AddressBook.add_record name phone (book w)); finish_turn. }
  destruct (String.eqb_spec cmd "change") as [->|N5].
  { destruct args as [|a [|b [|c [|x args]]]]; finish_turn. }
  destruct (String.eqb_spec cmd "phone") as [->|N6].
  { destruct args as [|a [|x args]]; finish_turn. }
  destruct (String.eqb_spec cmd "all") as [->|N7].
  { unfold mbind, get_book, lift, say, print, ret. simpl.
    destruct (AddressBook.str (book w)); finish_turn. }
  destruct (String.eqb_spec cmd "add-birthday") as [->|N8].
  { destruct args as [|a [|b [|x args]]]; try finish_turn.
    unfold mbind.
    destruct (add_birthday_keeps_files [a; b] w) as (v & w1 & -> & Ho & Hf & Ht).
    intros Hrun; injection Hrun as <- <-. simpl. rewrite Hf, Ht. close_turn. }
  destruct (String.eqb_spec cmd "show-birthday") as [->|N9].
  { destruct args as [|a [|x args]]; finish_turn. }
  destruct (String.eqb_spec cmd "birthdays") as [->|N10].
  { unfold mbind.
    destruct (birthdays_only_prints args w) as (v & w1 & -> & Hb & Hf & Ht).
    intros Hrun; injection Hrun as <- <-. rewrite Hb, Hf, Ht. close_turn. }
  finish_turn.
Qed.
End TurnEffects.

Section Commands.
Context {P : Pickle}.
Implicit Types (w : World) (args : list string).

Lemma parse_input_args (user_input cmd : string) args :
  parse_input user_input = Return (cmd, args) ->
  Forall (fun t => t <> EmptyString) args.
Proof.
  unfold parse_input, Py.split. intros H.
  pose proof (split_ws_tokens user_input EmptyString eq_refl) as Htok.
  destruct (Py.split_ws user_input EmptyString) as [|c a]; [discriminate|].
  injection H as _ <-. inversion Htok as [|? ? _ Ha]; subst.
  eapply Forall_impl; [|exact Ha]. now intros t [Ht _].
Qed.

Lemma main_body_unparsed (user_input : string) (e : exn) w :
  parse_input user_input = Raise e -> main_body user_input w = (Raise e, w).
Proof.
  intros H. unfold main_body, mbind at 1, lift. now rewrite H.
Qed.

Lemma main_body_add (user_input name phone : string) w :
  parse_input user_input = Return ("add", [name; phone]) ->
  main_body user_input w
  = (Return Continue,
     printed (with_book w (Py.dict_set name (Record_.mk (Field.mk name) [] None)
                                       (book w)))
             "Contact added.").
Proof.
  intros Hp. pose proof (parse_input_args _ _ _ Hp) as Hargs.
  inversion Hargs as [|? ? Hname _]; subst.
  unfold main_body, mbind at 1, lift. rewrite Hp. simpl.
  unfold mbind, get_book, lift, set_book, say, print, ret. simpl.
  rewrite (add_record_nonempty name phone (book w) Hname). reflexivity.
Qed.

Lemma main_body_usage (user_input cmd usage : string) (n : nat) args w :
  parse_input user_input = Return (cmd, args) ->
  In (cmd, n, usage) usage_table ->
  length args <> n ->
  main_body user_input w = (Return Continue, printed w usage).
Proof.
  intros Hp Hin Hlen. unfold main_body, mbind at 1, lift. rewrite Hp.
  simpl in Hin.
  destruct Hin as [E|[E|[E|[E|[E|[]]]]]]; injection E as <- <- <-; simpl.
  - destruct args as [|a [|b [|c args]]]; try reflexivity. now elim Hlen.
  - destruct args as [|a [|b [|c [|x args]]]]; try reflexivity. now elim Hlen.
  - destruct args as [|a [|b args]]; try reflexivity. now elim Hlen.
  - destruct args as [|a [|b [|c args]]]; try reflexivity. now elim Hlen.
  - destruct args as [|a [|b args]]; try reflexivity. now elim Hlen.
Qed.

Lemma main_body_unknown (user_input cmd : string) args w :
  parse_input user_input = Return (cmd, args) ->
  ~ In cmd known_commands ->
  main_body user_input w = (Return Continue, printed w "Invalid command.").
Proof.
  intros Hp Hn. unfold main_body, mbind at 1, lift. rewrite Hp.
  cbn [fst snd existsb orb].
  repeat match goal with
         | |- context [String.eqb cmd ?c] =>
             destruct (String.eqb_spec cmd c) as [E|_];
             [exfalso; apply Hn; rewrite E; simpl; tauto|]
         end.
  reflexivity.
Qed.

End Commands.

(** ** The commands of the loop *)

(** An [add] line with two arguments never fails: it stores under the name
    a record with that name, no phone and no birthday, replacing what was
    stored under the name, prints [Contact added.] and the loop goes on. *)
Theorem add_command_always_adds
        (P : Pickle) (user_input name phone : string) (w : World) :
  parse_input user_input = Return ("add", [name; phone]) ->
  main_body user_input w
  = (Return Continue,
     printed (with_book w (Py.dict_set name (Record_.mk (Field.mk name) [] None)
                                       (book w)))
             "Contact added.").
Proof. apply main_body_add. Qed.

Lemma add_command_always_adds_witness :
  main_body "ADD Ann 99" sample_world
  = (Return Continue,
     printed (with_book sample_world [("Ann", ann_new)]) "Contact added.").
Proof.
  exact (add_command_always_adds object_pickle "ADD Ann 99" "Ann" "99"
                                 sample_world eq_refl).
Defined.

(** A command given another number of arguments than it takes prints its
    usage message and changes nothing else; the loop goes on. *)
Theorem wrong_argument_count_prints_usage
        (P : Pickle) (user_input cmd usage : string) (n : nat)
        (args : list string) (w : World) :
  parse_input user_input = Return (cmd, args) ->
  In (cmd, n, usage) usage_table ->
  length args <> n ->
  main_body user_input w = (Return Continue, printed w usage).
Proof. apply main_body_usage. Qed.

Lemma wrong_argument_count_prints_usage_witness :
  main_body "add Ann" sample_world
  = (Return Continue,
     printed sample_world "Invalid input format. Use 'add name phone'.").
Proof.
  apply (wrong_argument_count_prints_usage
           object_pickle "add Ann" "add"
           "Invalid input format. Use 'add name phone'." 2 ["Ann"] sample_world);
    [reflexivity | simpl; tauto | discriminate].
Defined.

(** A line whose first word, in lower case, is none of the ten commands
    prints [Invalid command.] and changes nothing else; the loop goes on. *)
Theorem unknown_command_only_prints
        (P : Pickle) (user_input cmd : string) (args : list string) (w : World) :
  parse_input user_input = Return (cmd, args) ->
  ~ In cmd known_commands ->
  main_body user_input w = (Return Continue, printed w "Invalid command.").
Proof. apply main_body_unknown. Qed.

Lemma unknown_command_only_prints_witness :
  main_body "remove Ann" sample_world
  = (Return Continue, printed sample_world "Invalid command.").
Proof.
  apply (unknown_command_only_prints object_pickle "remove Ann" "remove" ["Ann"]
                                     sample_world);
    [reflexivity | simpl; intuition discriminate].
Defined.

(** One round of the loop: the prompt, then the turn. *)
Lemma main_loop_cons (P : Pickle) (user_input : string)
      (inputs : list string) (w : World) :
  main_loop (user_input :: inputs) w
  = match main_body user_input (printed w "Enter a command: ") with
    | (Return Continue, w') => main_loop inputs w'
    | (Return Break, w') => (Return tt, w')
    | (Raise e, w') => (Raise e, w')
    end.
Proof.
  simpl. unfold mbind at 1. simpl. unfold mbind at 1.
  fold (printed w "Enter a command: ").
  destruct (main_body user_input (printed w "Enter a command: "))
    as [[[|]|e] w']; reflexivity.
Qed.

(** [close] and [exit], in any letter case and with any arguments, write
    the book to [addressbook.pkl], print [Good bye!] and leave the loop by
    [break]. A turn for any other command never writes a file, and it either
    lets the loop go on or raises an exception, which nothing catches: the
    program then ends without saving. *)
Theorem only_close_and_exit_save_and_stop
        (P : Pickle) (user_input cmd : string) (args : list string) (w : World) :
  parse_input user_input = Return (cmd, args) ->
  (In cmd ["close"; "exit"] ->
   main_body user_input w = (Return Break, closed w))
  /\ (~ In cmd ["close"; "exit"] ->
      files (snd (main_body user_input w)) = files w
      /\ (fst (main_body user_input w) = Return Continue
          \/ exists e : exn, fst (main_body user_input w) = Raise e)
      /\ forall inputs : list string,
          main_loop (user_input :: inputs) w
          = main_loop inputs
              (snd (main_body user_input (printed w "Enter a command: ")))
          \/ exists e : exn,
              main_loop (user_input :: inputs) w
              = (Raise e,
                 snd (main_body user_input (printed w "Enter a command: ")))).
Proof.
  intros Hp. split.
  - destruct (main_body user_input w) as [r w'] eqn:E.
    destruct (main_body_store user_input cmd args w r w' Hp E)
      as (_ & Hclose & _).
    intros Hin. destruct (Hclose Hin) as [-> ->]. reflexivity.
  - intros Hout. split; [|split].
    + destruct (main_body user_input w) as [r w'] eqn:E.
      destruct (main_body_store user_input cmd args w r w' Hp E)
        as (_ & _ & Hother & _).
      exact (proj2 (Hother Hout)).
    + destruct (main_body user_input w) as [[[|]|e] w'] eqn:E.
      * now left.
      * exfalso.
        destruct (main_body_store user_input cmd args w _ w' Hp E)
          as (_ & _ & Hother & _).
        destruct (Hother Hout) as [Hne _]. now apply Hne.
      * right. now exists e.
    + intros inputs. rewrite main_loop_cons.
      destruct (main_body user_input (printed w "Enter a command: "))
        as [[[|]|e] w1] eqn:E1; simpl.
      * now left.
      * exfalso.
        destruct (main_body_store user_input cmd args _ _ w1 Hp E1)
          as (_ & _ & Hother & _).
        destruct (Hother Hout) as [Hne _]. now apply Hne.
      * right. now exists e.
Qed.

Lemma only_close_and_exit_save_and_stop_witness :
  main_body "EXIT now" sample_world = (Return Break, closed sample_world)
  /\ files (snd (main_body "phone Ann" sample_world)) = []
  /\ main_loop ["phone Ann"; "add Bob 1"; "close"] sample_world
     = (raise TypeError "unhashable type: 'list'",
        printed sample_world "Enter a command: ").
Proof.
  split; [|split].
  - apply (proj1 (only_close_and_exit_save_and_stop
                    object_pickle "EXIT now" "exit" ["now"] sample_world eq_refl)).
    simpl; tauto.
  - apply (proj2 (only_close_and_exit_save_and_stop
                    object_pickle "phone Ann" "phone" ["Ann"] sample_world
                    eq_refl)).
    simpl; intuition discriminate.
  - reflexivity.
Defined.

(** Only [add] and [add-birthday] change the book: after a turn for any
    other command, and after a line that does not parse, the book is the one
    before, whether the turn returned or raised. The date is never
    changed. *)
Theorem only_add_commands_change_book
        (P : Pickle) (user_input : string) (w : World) :
  today (snd (main_body user_input w)) = today w
  /\ (forall (cmd : string) (args : list string),
         parse_input user_input = Return (cmd, args) ->
         ~ In cmd ["add"; "add-birthday"] ->
         book (snd (main_body user_input w)) = book w)
  /\ (forall e : exn,
         parse_input user_input = Raise e ->
         main_body user_input w = (Raise e, w)).
Proof.
  destruct (parse_input user_input) as [[cmd args]|e] eqn:Hp.
  - destruct (main_body user_input w) as [r w'] eqn:E.
    destruct (main_body_store user_input cmd args w r w' Hp E)
      as (Ht & _ & _ & Hb).
    split; [exact Ht|]. split; [|discriminate].
    intros cmd' args' [= <- <-]. exact Hb.
  - rewrite (main_body_unparsed user_input e w Hp).
    split; [reflexivity|]. split; [discriminate|].
    now intros e' [= <-].
Qed.

Lemma only_add_commands_change_book_witness :
  book (snd (main_body "change Ann 1234567890 42" sample_world))
  = [("Ann", ann)].
Proof.
  apply (proj1 (proj2 (only_add_commands_change_book
                         object_pickle "change Ann 1234567890 42" sample_world))
               "change" ["Ann"; "1234567890"; "42"] eq_refl).
  simpl; intuition discriminate.
Defined.

(** A [show-birthday] line with one argument always prints
    [An error occurred: unhashable type: 'list'], for a contact with a
    birthday as for any other, and changes nothing else. *)
Theorem show_birthday_command_never_shows
        (P : Pickle) (user_input name : string) (w : World) :
  parse_input user_input = Return ("show-birthday", [name]) ->
  main_body user_input w
  = (Return Continue,
     printed w "An error occurred: unhashable type: 'list'").
Proof.
  intros Hp. unfold main_body, mbind at 1, lift. rewrite Hp. reflexivity.
Qed.

Lemma show_birthday_command_never_shows_witness :
  main_body "show-birthday Bob"
            (mkWorld (P := object_pickle) two_contacts [] [] a_day)
  = (Return Continue,
     printed (mkWorld (P := object_pickle) two_contacts [] [] a_day)
             "An error occurred: unhashable type: 'list'").
Proof.
  exact (show_birthday_command_never_shows
           object_pickle "show-birthday Bob" "Bob" _ eq_refl).
Defined.

(** ** The whole loop *)

Lemma keyed_by_name_update (b : AddressBook.t) (k : string)
      (r r' : Record_.t) :
  keyed_by_name b ->
  Py.dict_get k b = Some r ->
  Record_.name r' = Record_.name r ->
  keyed_by_name (Py.dict_set k r' b).
Proof.
  intros Hinv Hget Hname.
  destruct (keyed_by_name_get b k r Hinv Hget) as [Hk Hne].
  destruct Hinv as [Hall Hnd]. split.
  - apply Forall_forall. intros kr Hin.
    apply dict_set_In in Hin as [->|Hin].
    + simpl. rewrite Hname. now split.
    + rewrite Forall_forall in Hall. now apply Hall.
  - now apply dict_set_NoDup.
Qed.

Section Loop.
Context {P : Pickle}.
Implicit Types (w : World) (args : list string).

Lemma add_birthday_keeps_invariant args w :
  keyed_by_name (book w) -> keyed_by_name (book (snd (add_birthday args w))).
Proof.
  intros Hinv. unfold add_birthday, input_error.
  destruct args as [|name [|birthday [|x args]]]; try exact Hinv.
  rewrite add_birthday_func_unfold.
  destruct (Py.dict_get name (book w)) as [r|] eqn:Hget; [|exact Hinv].
  unfold Record_.add_birthday.
  destruct (Record_.birthday r); [exact Hinv|].
  destruct (Birthday.init birthday) as [bd|e]; [|exact Hinv].
  simpl. now apply (keyed_by_name_update (book w) name r).
Qed.

(** A turn of the loop keeps the book keyed by the names of its records. *)
Lemma main_body_keeps_invariant (user_input : string) w :
  keyed_by_name (book w) ->
  keyed_by_name (book (snd (main_body user_input w))).
Proof.
  intros Hinv.
  destruct (parse_input user_input) as [[cmd args]|e] eqn:Hp;
    [|now rewrite (main_body_unparsed user_input e w Hp)].
  destruct (string_dec cmd "add") as [->|Nadd].
  { destruct args as [|name [|phone [|x args]]];
      try (erewrite main_body_usage;
           [exact Hinv | exact Hp | simpl; tauto | discriminate]).
    rewrite (main_body_add user_input name phone w Hp). simpl.
    pose proof (parse_input_args _ _ _ Hp) as Hargs.
    inversion Hargs as [|? ? Hname _]; subst.
    pose proof (keyed_by_name_add name phone (book w) Hinv) as H.
    simpl in H. now rewrite (add_record_nonempty name phone _ Hname) in H. }
  destruct (string_dec cmd "add-birthday") as [->|Nbd].
  { destruct args as [|a [|b [|x args]]];
      try (erewrite main_body_usage;
           [exact Hinv | exact Hp | simpl; tauto | discriminate]).
    unfold main_body, mbind at 1, lift. rewrite Hp. simpl. unfold mbind.
    pose proof (add_birthday_keeps_invariant [a; b] w Hinv) as H.
    destruct (add_birthday [a; b] w) as [[v|e] w1]; exact H. }
  destruct (main_body user_input w) as [r w'] eqn:E.
  destruct (main_body_store user_input cmd args w r w' Hp E) as (_ & _ & _ & Hb).
  simpl. rewrite Hb; [exact Hinv|]. simpl. intuition congruence.
Qed.

Lemma main_loop_keeps_invariant (inputs : list string) w :
  keyed_by_name (book w) ->
  keyed_by_name (book (snd (main_loop inputs w))).
Proof.
  revert w. induction inputs as [|i inputs IH]; intros w Hinv; simpl.
  - exact Hinv.
  - unfold mbind at 1. simpl. unfold mbind at 1.
    pose proof (main_body_keeps_invariant i (printed w "Enter a command: ") Hinv)
      as H.
    unfold printed in H.
    destruct (main_body i _) as [[[|]|e] w1]; simpl in *.
    + now apply IH.
    + exact H.
    + exact H.
Qed.

(** When the loop ends without an exception, the last turn was a [close]
    or an [exit] and the file holds the book as it then was. *)
Lemma main_loop_saves (inputs : list string) w (w' : World) :
  main_loop inputs w = (Return tt, w') ->
  Py.dict_get default_filename (files w') = Some (pickle_dump (book w')).
Proof.
  revert w. induction inputs as [|i inputs IH]; intros w; simpl.
  - discriminate.
  - unfold mbind at 1. simpl. unfold mbind at 1.
    destruct (main_body i _) as [[[|]|e] w1] eqn:E; [| |discriminate].
    + apply IH.
    + intros [= <-].
      destruct (parse_input i) as [[cmd args]|e] eqn:Hp;
        [|rewrite (main_body_unparsed i e _ Hp) in E; discriminate].
      destruct (main_body_store i cmd args _ _ _ Hp E) as (_ & Hc & Ho & _).
      destruct (in_dec string_dec cmd ["close"; "exit"]) as [Hin|Hout].
      * destruct (Hc Hin) as [_ ->]. simpl. apply dict_get_set_same.
      * destruct (Ho Hout) as [Hne _]. congruence.
Qed.

End Loop.

(** A session keeps the invariant of the book: if every key of the book is
    the name of its record and no key occurs twice when the loop starts, the
    same holds when it stops, however it stops and whatever was typed. *)
Theorem session_keeps_book_keyed_by_name
        (P : Pickle) (inputs : list string) (w : World) :
  keyed_by_name (book w) ->
  keyed_by_name (book (snd (main_loop inputs w))).
Proof. apply main_loop_keeps_invariant. Qed.

Lemma session_keeps_book_keyed_by_name_witness :
  keyed_by_name
    (book (snd (main_loop ["add Bob 1"; "add-birthday Bob 01.02.2000";
                           "add Bob 2"; "phone Bob"] sample_world))).
Proof.
  apply (session_keeps_book_keyed_by_name object_pickle).
  split.
  - constructor; [split; [reflexivity|discriminate]|constructor].
  - constructor; [simpl; tauto|constructor].
Defined.

(** A session that ends without an exception has saved its last book: the
    file [addressbook.pkl] holds the book the loop ended with, and loading it
    gives that book back when [pickle] gives back what it was given. *)
Theorem session_end_saves_book
        (P : Pickle) (inputs : list string) (w w' : World) :
  main_loop inputs w = (Return tt, w') ->
  Py.dict_get default_filename (files w') = Some (pickle_dump (book w'))
  /\ (pickle_round_trip P ->
      fst (load_data default_filename w') = Return (book w')).
Proof.
  intros Hrun. pose proof (main_loop_saves inputs w w' Hrun) as Hsaved.
  split; [exact Hsaved|].
  intros Hrt. unfold load_data, open_rb, mbind, get_files, lift, ret. simpl.
  rewrite Hsaved. simpl. now rewrite Hrt.
Qed.

Lemma session_end_saves_book_witness :
  Py.dict_get default_filename
    (files (snd (main_loop ["add Bob 1"; "close"; "add Cy 2"] sample_world)))
  = Some [("Ann", ann); ("Bob", Record_.mk (Field.mk "Bob") [] None)].
Proof.
  exact (proj1 (session_end_saves_book
                  object_pickle ["add Bob 1"; "close"; "add Cy 2"] sample_world
                  _ eq_refl)).
Defined.

(** ** Persistence: missing files, overwriting, other files *)



(** ** Birthdays: what is accepted and what is listed *)

Lemma int_raises_ValueError (s : string) (e : exn) :
  Py.int s = Raise e -> kind e = ValueError.
Proof.
  unfold Py.int.
  destruct (Py.digits _ 0 0%nat false) as [[v n]|];
    [destruct (Py.max_str_digits <? n)%nat|]; intros [= <-]; reflexivity.
Qed.

Lemma datetime_outcome (y m d : Z) :
  match Py.datetime y m d with
  | Return dt => dt = Py.mkDate y m d /\ Py.valid_date dt = true
  | Raise e => kind e = ValueError \/ kind e = OverflowError
  end.
Proof.
  unfold Py.datetime.
  destruct (negb (Py.fits_c_int y && Py.fits_c_int m && Py.fits_c_int d));
    [right; reflexivity|].
  destruct (Py.valid_date (Py.mkDate y m d)) eqn:E; [now split|now left].
Qed.

Lemma Birthday_parse_outcome (value : string) :
  match Birthday.parse value with
  | Return dt => Py.valid_date dt = true
  | Raise e => kind e = ValueError \/ kind e = OverflowError
  end.
Proof.
  unfold Birthday.parse.
  destruct (Py.split_sep "." value) as [|day [|month [|year [|x l]]]];
    try (left; reflexivity).
  destruct (Py.int year) as [y|e] eqn:Ey;
    [|left; exact (int_raises_ValueError _ _ Ey)].
  destruct (Py.int month) as [m|e] eqn:Em;
    [|left; exact (int_raises_ValueError _ _ Em)].
  destruct (Py.int day) as [d|e] eqn:Ed;
    [|left; exact (int_raises_ValueError _ _ Ed)].
  simpl. pose proof (datetime_outcome y m d) as H.
  destruct (Py.datetime y m d); [exact (proj2 H)|exact H].
Qed.

(** [Birthday(value)] keeps the text as it is when the text denotes a date
    of the calendar; otherwise it raises [ValueError] with the message
    [Invalid date format. Use DD.MM.YYYY], or lets an [OverflowError] of
    [datetime] through. *)
Theorem Birthday_init_outcomes (value : string) :
  match Birthday.init value with
  | Return b =>
      b = Field.mk value
      /\ exists d : Py.date,
          Birthday.parse value = Return d /\ Py.valid_date d = true
  | Raise e =>
      e = mkExn ValueError "Invalid date format. Use DD.MM.YYYY"
      \/ kind e = OverflowError
  end.
Proof.
  unfold Birthday.init. pose proof (Birthday_parse_outcome value) as H.
  destruct (Birthday.parse value) as [d|e].
  - split; [reflexivity|]. now exists d.
  - destruct H as [H|H]; rewrite H; [now left|now right].
Qed.

(** A date read from a year before the year of [today] is before
    [today]. *)
Lemma date_le_earlier_year (today d : Py.date) :
  Py.year d < Py.year today -> Py.date_le today d = false.
Proof.
  intros H. unfold Py.date_le.
  destruct (Z.ltb_spec (Py.year today) (Py.year d)); [lia|].
  destruct (Z.eqb_spec (Py.year today) (Py.year d)); [lia|reflexivity].
Qed.

(** A book in which every stored birthday reads as a date of a year before
    this year has no upcoming birthday, whatever the months and the days:
    the query returns the empty list. So does a book without birthdays. *)
Theorem past_years_are_never_upcoming (today : Py.date) (b : AddressBook.t) :
  Forall (fun r => forall bd : Birthday.t,
              Record_.birthday r = Some bd ->
              exists d : Py.date,
                Py.strptime_dmY (Field.value bd) = Return d
                /\ Py.year d < Py.year today) (Py.dict_values b) ->
  AddressBook.get_upcoming_birthdays today b = Return [].
Proof.
  unfold AddressBook.get_upcoming_birthdays.
  induction 1 as [|r rs Hr _ IH]; simpl; [reflexivity|].
  destruct (Record_.birthday r) as [bd|]; [|exact IH].
  destruct (Hr bd eq_refl) as (d & -> & Hy). simpl.
  unfold AddressBook.in_window. rewrite (date_le_earlier_year today d Hy).
  simpl. now rewrite IH.
Qed.

Lemma past_years_are_never_upcoming_witness :
  AddressBook.get_upcoming_birthdays a_day two_contacts = Return [].
Proof.
  apply past_years_are_never_upcoming.
  constructor; [intros bd [=]|].
  constructor; [|constructor].
  intros bd [= <-]. exists (Py.mkDate 2001 12 24). split; [reflexivity|].
  simpl. lia.
Defined.

(** ** The two readers of a birthday *)













(** ** The command all *)

Lemma strs_lines (records : list Record_.t) (lines : list string) :
  Forall2 (fun r line => Record_.str r = Return line) records lines ->
  AddressBook.strs records = Return lines.
Proof.
  induction 1 as [|r line rs ls Hr _ IH]; simpl; [reflexivity|].
  now rewrite Hr, IH.
Qed.

(** When every record prints, an [all] line prints the book as one text:
    the lines of the records in the order they were first added, separated
    by line feeds; nothing else changes and the loop goes on. *)
Theorem all_command_prints_every_record
        (P : Pickle) (user_input : string) (args lines : list string)
        (w : World) :
  parse_input user_input = Return ("all", args) ->
  Forall2 (fun r line => Record_.str r = Return line)
          (Py.dict_values (book w)) lines ->
  AddressBook.str (book w) = Return (Py.join AddressBook.newline lines)
  /\ main_body user_input w
     = (Return Continue, printed w (Py.join AddressBook.newline lines)).
Proof.
  intros Hp Hlines.
  assert (Hs : AddressBook.str (book w)
               = Return (Py.join AddressBook.newline lines)).
  { unfold AddressBook.str. now rewrite (strs_lines _ _ Hlines). }
  split; [exact Hs|].
  unfold main_body, mbind at 1, lift. rewrite Hp. simpl.
  unfold mbind, get_book, lift. simpl. now rewrite Hs.
Qed.

Lemma all_command_prints_every_record_witness :
  main_body "all" (mkWorld (P := object_pickle) two_contacts [] [] a_day)
  = (Return Continue,
     printed (mkWorld (P := object_pickle) two_contacts [] [] a_day)
             (Py.join AddressBook.newline
                ["Contact name: Ann, phones: 1234567890";
                 "Contact name: Bob, phones: 5550100"])).
Proof.
  apply (all_command_prints_every_record
           object_pickle "all" []
           ["Contact name: Ann, phones: 1234567890";
            "Contact name: Bob, phones: 5550100"]);
    [reflexivity|].
  constructor; [reflexivity|]. constructor; [reflexivity|constructor].
Defined.
